(** * Pedestrian costing (valhalla, [src/sif/pedestriancost.cc])

    A shallow embedding of the [PedestrianCost] dynamic costing class: its
    constructor from a property tree, its access predicates, its edge and
    transition costs and its A* heuristic factor.

    Number representation.  The C++ [float] fields and intermediate values
    are embedded as exact rationals ([Q]): the arithmetic has the shape of
    the source, rounding to binary32 is abstracted away, and a division by
    zero yields [0] (the convention of [Qdiv]) where the source would produce
    an infinity or a NaN.  [uint32_t] values are embedded as [Z] with the
    wrap-around written out where the source computes on them. *)

From Stdlib Require Import ZArith QArith Qround Lia Lqa Bool.
From stdpp Require Import base gmap strings.

Local Open Scope Z_scope.

(** ** Constants and enumerations declared outside the translation unit *)

(** [midgard/constants.h]. *)
Definition kSecPerHour : Q := 3600.

(** [baldr/graphconstants.h]: access bits. *)
Definition kPedestrianAccess : Z := 2.
Definition kWheelchairAccess : Z := 256.

(** [baldr/graphconstants.h]: [enum class Use], restricted to the values a
    pedestrian edge can carry; [kOtherUse] stands for every value the costing
    never compares against. *)
Inductive Use : Set :=
| kRoad | kDriveway | kAlley | kSidewalk | kFootway | kSteps
| kFerry | kTransitConnection | kOtherUse.

Definition Use_eqb (a b : Use) : bool :=
  match a, b with
  | kRoad, kRoad | kDriveway, kDriveway | kAlley, kAlley
  | kSidewalk, kSidewalk | kFootway, kFootway | kSteps, kSteps
  | kFerry, kFerry | kTransitConnection, kTransitConnection
  | kOtherUse, kOtherUse => true
  | _, _ => false
  end.

(** [baldr/graphconstants.h]: [enum class Surface], ordered from best to
    worst; the comparison [surface() > minimal_allowed_surface_] is on the
    underlying integer. *)
Inductive Surface : Set :=
| kPavedSmooth | kPaved | kPavedRough | kCompacted
| kDirt | kGravel | kPath | kImpassable.

Definition Surface_rank (s : Surface) : Z :=
  match s with
  | kPavedSmooth => 0 | kPaved => 1 | kPavedRough => 2 | kCompacted => 3
  | kDirt => 4 | kGravel => 5 | kPath => 6 | kImpassable => 7
  end.

(** [baldr/graphconstants.h]: [enum class NodeType]. *)
Inductive NodeType : Set :=
| kStreetIntersection | kGate | kBollard | kTollBooth | kBorderControl
| kOtherNode.

Definition NodeType_eqb (a b : NodeType) : bool :=
  match a, b with
  | kStreetIntersection, kStreetIntersection | kGate, kGate
  | kBollard, kBollard | kTollBooth, kTollBooth
  | kBorderControl, kBorderControl | kOtherNode, kOtherNode => true
  | _, _ => false
  end.

(** [baldr/graphconstants.h]: [enum class PedestrianType : uint8_t]. *)
Inductive PedestrianType : Set := kFoot | kWheelchair | kSegway.

Definition PedestrianType_code (t : PedestrianType) : Z :=
  match t with kFoot => 0 | kWheelchair => 1 | kSegway => 2 end.

(** ** Integer conversions *)

Definition uint32_modulus : Z := 2 ^ 32.

Definition wrap_uint32 (z : Z) : Z := z mod uint32_modulus.

(** Conversion of a [float] to [uint32_t]: the fractional part is discarded
    (truncation toward zero).  The source leaves the conversion of a value
    outside the range of [uint32_t] undefined; the embedding wraps it. *)
Definition float_to_uint32 (x : Q) : Z :=
  wrap_uint32 (Z.quot (Qnum x) (Zpos (Qden x))).

(** ** Graph data read by the costing *)

Definition GraphId : Set := Z.

Module DirectedEdge.
Record t : Type := Build {
  length : Z;
  use : Use;
  surface : Surface;
  forwardaccess : Z;
  speed : Z;
  is_shortcut : bool;
  roundabout : bool;
  link : bool;
  localedgeidx : Z;
  edge_to_right : Z -> bool;
  edge_to_left : Z -> bool;
  stopimpact : Z -> Z
}.
End DirectedEdge.

Module NodeInfo.
Record t : Type := Build {
  type : NodeType;
  access : Z;
  name_consistency : Z -> Z -> bool
}.
End NodeInfo.

Module EdgeLabel.
Record t : Type := Build {
  path_distance : Z;
  use : Use;
  opp_local_idx : Z
}.
End EdgeLabel.

(** What the location filter reads of a [baldr::DirectedEdge] beyond the
    attributes above: the two hierarchy-transition flags and the outcome of
    the comparison [use() >= Use::kRail], whose enumeration order is declared
    in [baldr/graphconstants.h]. *)
Module SearchEdge.
Record t : Type := Build {
  edge : DirectedEdge.t;
  trans_up : bool;
  trans_down : bool;
  use_at_least_kRail : bool
}.
End SearchEdge.

(** [sif/costconstants.h]: the two-part cost. *)
Record Cost : Set := mkCost { cost : Q; secs : Q }.

(** ** Property tree

    A JSON settings object is a flat map from keys to leaves.  A leaf holds
    either text or a number; [PNumber q] stands for a leaf whose text reads
    as the number [q]. *)
Inductive pdata : Set :=
| PString (s : string)
| PNumber (q : Q).

(** [pt.get<std::string>(key, dflt)].  The only key read as a string is
    [type], which is compared against words; a numeric leaf never equals one
    of them, so it is treated like an absent key. *)
Definition get_string (pt : gmap string pdata) (key dflt : string) : string :=
  match pt !! key with
  | Some (PString s) => s
  | _ => dflt
  end.

(** [pt.get<float>(key, dflt)]: the default is returned when the key is
    absent or its leaf does not convert. *)
Definition get_float (pt : gmap string pdata) (key : string) (dflt : Q) : Q :=
  match pt !! key with
  | Some (PNumber q) => q
  | _ => dflt
  end.

(** [pt.get<uint32_t>(key, dflt)]: a leaf converts when it is a whole number
    in the range of [uint32_t]. *)
Definition get_uint32 (pt : gmap string pdata) (key : string) (dflt : Z) : Z :=
  match pt !! key with
  | Some (PNumber q) =>
      if (Zpos (Qden (Qred q)) =? 1) && (0 <=? Qnum (Qred q))
         && (Qnum (Qred q) <? uint32_modulus)
      then Qnum (Qred q) else dflt
  | _ => dflt
  end.

(** ** Default options and values (anonymous namespace of the source) *)

Definition kMaxDistanceFoot : Z := 100000.
Definition kMaxDistanceWheelchair : Z := 10000.

Definition kDefaultSpeedFoot : Q := 51 # 10.
Definition kDefaultSpeedWheelchair : Q := 4.

Definition kDefaultStepPenaltyFoot : Q := 30.
Definition kDefaultStepPenaltyWheelchair : Q := 600.

Definition kDefaultMaxGradeFoot : Z := 90.
Definition kDefaultMaxGradeWheelchair : Z := 12.

Definition kModeWeight : Q := 15 # 10.
Definition kDefaultManeuverPenalty : Q := 5.
Definition kDefaultGatePenalty : Q := 10.
Definition kDefaultWalkwayFactor : Q := 9 # 10.
Definition kDefaultSideWalkFactor : Q := 95 # 100.
Definition kDefaultAlleyFactor : Q := 2.
Definition kDefaultDrivewayFactor : Q := 5.
Definition kDefaultFerryCost : Q := 300.
Definition kDefaultCountryCrossingCost : Q := 600.
Definition kDefaultCountryCrossingPenalty : Q := 0.
Definition kDefaultUseFerry : Q := 1.

Definition kTransitStartEndMaxDistance : Z := 2415.
Definition kTransitTransferMaxDistance : Z := 805.

Definition kRoundaboutFactor : Q := 5.

Definition kMaxFerryPenalty : Q := 8 * 3600.

Definition kMinPedestrianSpeed : Q := 5 # 10.
Definition kMaxPedestrianSpeed : Q := 25.

Definition kCrossingCosts : list Z := [0; 0; 1; 1; 2; 3; 5; 15].

Definition kMaxSeconds : Q := 12 * kSecPerHour.
Definition kMaxFactor : Q := 20.

(** ** Valid ranges and defaults *)

Record ranged_default_t : Set := mkRange {
  range_min : Q;
  range_def : Q;
  range_max : Q
}.

Definition in_range (r : ranged_default_t) (x : Q) : Prop :=
  (range_min r <= x /\ x <= range_max r)%Q.

Definition in_rangeb (r : ranged_default_t) (x : Q) : bool :=
  Qle_bool (range_min r) x && Qle_bool x (range_max r).

Definition kMaxDistanceWheelchairRange :=
  mkRange 0 (inject_Z kMaxDistanceWheelchair) (inject_Z kMaxDistanceWheelchair).
Definition kMaxDistanceFootRange :=
  mkRange 0 (inject_Z kMaxDistanceFoot) (inject_Z kMaxDistanceFoot).

Definition kSpeedWheelchairRange :=
  mkRange kMinPedestrianSpeed kDefaultSpeedWheelchair kMaxPedestrianSpeed.
Definition kSpeedFootRange :=
  mkRange kMinPedestrianSpeed kDefaultSpeedFoot kMaxPedestrianSpeed.

Definition kStepPenaltyWheelchairRange :=
  mkRange 0 kDefaultStepPenaltyWheelchair kMaxSeconds.
Definition kStepPenaltyFootRange :=
  mkRange 0 kDefaultStepPenaltyFoot kMaxSeconds.

Definition kMaxGradeWheelchairRange :=
  mkRange 0 (inject_Z kDefaultMaxGradeWheelchair) (inject_Z kMaxDistanceWheelchair).
Definition kMaxGradeFootRange :=
  mkRange 0 (inject_Z kDefaultMaxGradeFoot) (inject_Z kMaxDistanceFoot).

Definition kModeWeightRange := mkRange 0 kModeWeight kMaxFactor.
Definition kManeuverPenaltyRange := mkRange 0 kDefaultManeuverPenalty kMaxSeconds.
Definition kGatePenaltyRange := mkRange 0 kDefaultGatePenalty kMaxSeconds.
Definition kWalkwayFactorRange := mkRange 0 kDefaultWalkwayFactor kMaxFactor.
Definition kSideWalkFactorRange := mkRange 0 kDefaultSideWalkFactor kMaxFactor.
Definition kAlleyFactorRange := mkRange 0 kDefaultAlleyFactor kMaxFactor.
Definition kDrivewayFactorRange := mkRange 0 kDefaultDrivewayFactor kMaxFactor.
Definition kFerryCostRange := mkRange 0 kDefaultFerryCost kMaxSeconds.
Definition kCountryCrossingCostRange :=
  mkRange 0 kDefaultCountryCrossingCost kMaxSeconds.
Definition kCountryCrossingPenaltyRange :=
  mkRange 0 kDefaultCountryCrossingPenalty kMaxSeconds.
Definition kUseFerryRange := mkRange 0 kDefaultUseFerry 1.
Definition kTransitStartEndMaxDistanceRange :=
  mkRange 0 (inject_Z kTransitStartEndMaxDistance)
            (inject_Z kTransitStartEndMaxDistance).
Definition kTransitTransferMaxDistanceRange :=
  mkRange 0 (inject_Z kTransitTransferMaxDistance)
            (inject_Z kTransitTransferMaxDistance).

(** ** The costing class *)

Module PedestrianCost.

(** Data members.  [allow_transit_connections_] and [user_avoid_edges_] are
    members of the base class [DynamicCost] that the methods below read (the
    latter through [IsUserAvoidEdge]). *)
Record t : Type := Build {
  allow_transit_connections_ : bool;
  user_avoid_edges_ : gset Z;
  type_ : PedestrianType;
  access_mask_ : Z;
  max_distance_ : Z;
  mode_weight_ : Q;
  transit_start_end_max_distance_ : Z;
  transit_transfer_max_distance_ : Z;
  minimal_allowed_surface_ : Surface;
  max_grade_ : Z;
  speed_ : Q;
  speedfactor_ : Q;
  walkway_factor_ : Q;
  sidewalk_factor_ : Q;
  alley_factor_ : Q;
  driveway_factor_ : Q;
  step_penalty_ : Q;
  gate_penalty_ : Q;
  maneuver_penalty_ : Q;
  country_crossing_cost_ : Q;
  country_crossing_penalty_ : Q;
  ferry_cost_ : Q;
  ferry_penalty_ : Q;
  ferry_weight_ : Q;
  use_ferry_ : Q
}.

(** [DynamicCost::IsUserAvoidEdge]. *)
Definition IsUserAvoidEdge (this : t) (edgeid : GraphId) : bool :=
  bool_decide (edgeid ∈ user_avoid_edges_ this).

(** The ferry part of the constructor: penalty and edge weighting derived
    from the [use_ferry_] factor. *)
Definition ferry_penalty_of (use_ferry : Q) : Q :=
  if Qlt_le_dec use_ferry (1 # 2)
  then inject_Z (float_to_uint32 (kMaxFerryPenalty * (1 - use_ferry * 2)))
  else 0.

Definition ferry_weight_of (use_ferry : Q) : Q :=
  if Qlt_le_dec use_ferry (1 # 2)
  then 10 - use_ferry * 18
  else (15 # 10) - use_ferry.

(** Constructor: options are read from the property tree; an option that is
    not present takes its default. *)
Definition PedestrianCost (pt : gmap string pdata) : t :=
  let type := get_string pt "type" "foot" in
  let wheelchair := String.eqb type "wheelchair" in
  let speed :=
    if wheelchair then get_float pt "walking_speed" kDefaultSpeedWheelchair
    else get_float pt "walking_speed" kDefaultSpeedFoot in
  let use_ferry := get_float pt "use_ferry" kDefaultUseFerry in
  {| allow_transit_connections_ := false;
     user_avoid_edges_ := ∅;
     type_ :=
       if wheelchair then kWheelchair
       else if String.eqb type "segway" then kSegway
       else kFoot;
     access_mask_ :=
       if wheelchair then kWheelchairAccess else kPedestrianAccess;
     max_distance_ :=
       if wheelchair then get_uint32 pt "max_distance" kMaxDistanceWheelchair
       else get_uint32 pt "max_distance" kMaxDistanceFoot;
     speed_ := speed;
     step_penalty_ :=
       if wheelchair
       then get_float pt "step_penalty" kDefaultStepPenaltyWheelchair
       else get_float pt "step_penalty" kDefaultStepPenaltyFoot;
     max_grade_ :=
       if wheelchair
       then float_to_uint32
              (get_float pt "max_grade" (inject_Z kDefaultMaxGradeWheelchair))
       else float_to_uint32
              (get_float pt "max_grade" (inject_Z kDefaultMaxGradeFoot));
     minimal_allowed_surface_ := if wheelchair then kCompacted else kPath;
     mode_weight_ := get_float pt "mode_weight" kModeWeight;
     maneuver_penalty_ :=
       get_float pt "maneuver_penalty" kDefaultManeuverPenalty;
     gate_penalty_ := get_float pt "gate_penalty" kDefaultGatePenalty;
     walkway_factor_ := get_float pt "walkway_factor" kDefaultWalkwayFactor;
     sidewalk_factor_ := get_float pt "sidewalk_factor" kDefaultSideWalkFactor;
     alley_factor_ := get_float pt "alley_factor" kDefaultAlleyFactor;
     driveway_factor_ := get_float pt "driveway_factor" kDefaultDrivewayFactor;
     ferry_cost_ := get_float pt "ferry_cost" kDefaultFerryCost;
     country_crossing_cost_ :=
       get_float pt "country_crossing_cost" kDefaultCountryCrossingCost;
     country_crossing_penalty_ :=
       get_float pt "country_crossing_penalty" kDefaultCountryCrossingPenalty;
     transit_start_end_max_distance_ :=
       get_uint32 pt "transit_start_end_max_distance"
                  kTransitStartEndMaxDistance;
     transit_transfer_max_distance_ :=
       get_uint32 pt "transit_transfer_max_distance"
                  kTransitTransferMaxDistance;
     use_ferry_ := use_ferry;
     ferry_penalty_ := ferry_penalty_of use_ferry;
     ferry_weight_ := ferry_weight_of use_ferry;
     speedfactor_ := (kSecPerHour * (1 # 1000)) / speed |}.

(** *** Methods that may write to the object

    They are not [const] in the source and are embedded as state
    transformers: result and object after the call. *)

Definition UseMaxMultiModalDistance (this : t) : unit * t :=
  (tt,
   {| allow_transit_connections_ := allow_transit_connections_ this;
      user_avoid_edges_ := user_avoid_edges_ this;
      type_ := type_ this;
      access_mask_ := access_mask_ this;
      max_distance_ := transit_start_end_max_distance_ this;
      mode_weight_ := mode_weight_ this;
      transit_start_end_max_distance_ := transit_start_end_max_distance_ this;
      transit_transfer_max_distance_ := transit_transfer_max_distance_ this;
      minimal_allowed_surface_ := minimal_allowed_surface_ this;
      max_grade_ := max_grade_ this;
      speed_ := speed_ this;
      speedfactor_ := speedfactor_ this;
      walkway_factor_ := walkway_factor_ this;
      sidewalk_factor_ := sidewalk_factor_ this;
      alley_factor_ := alley_factor_ this;
      driveway_factor_ := driveway_factor_ this;
      step_penalty_ := step_penalty_ this;
      gate_penalty_ := gate_penalty_ this;
      maneuver_penalty_ := maneuver_penalty_ this;
      country_crossing_cost_ := country_crossing_cost_ this;
      country_crossing_penalty_ := country_crossing_penalty_ this;
      ferry_cost_ := ferry_cost_ this;
      ferry_penalty_ := ferry_penalty_ this;
      ferry_weight_ := ferry_weight_ this;
      use_ferry_ := use_ferry_ this |}).

Definition GetMaxTransferDistanceMM (this : t) : Z * t :=
  (transit_transfer_max_distance_ this, this).

Definition GetModeWeight (this : t) : Q * t :=
  (mode_weight_ this, this).

(** *** [const] methods *)

Definition access_mode (this : t) : Z := access_mask_ this.

(** [Allowed(edge, pred, tile, edgeid)].  The tile is not read.  The sum of
    the two [uint32_t] distances wraps. *)
Definition Allowed (this : t) (edge : DirectedEdge.t) (pred : EdgeLabel.t)
    (edgeid : GraphId) : bool :=
  if (Z.land (DirectedEdge.forwardaccess edge) (access_mask_ this) =? 0)
     || (Surface_rank (DirectedEdge.surface edge)
         >? Surface_rank (minimal_allowed_surface_ this))
     || DirectedEdge.is_shortcut edge
     || IsUserAvoidEdge this edgeid
     || (wrap_uint32 (EdgeLabel.path_distance pred + DirectedEdge.length edge)
         >? max_distance_ this)
  then false
  else if negb (allow_transit_connections_ this)
          && Use_eqb (DirectedEdge.use edge) kTransitConnection
  then false
  else true.

(** [AllowedReverse(edge, pred, opp_edge, tile, opp_edgeid)]. *)
Definition AllowedReverse (this : t) (edge : DirectedEdge.t)
    (pred : EdgeLabel.t) (opp_edge : DirectedEdge.t) (opp_edgeid : GraphId)
    : bool :=
  if (Z.land (DirectedEdge.forwardaccess opp_edge) (access_mask_ this) =? 0)
     || (Surface_rank (DirectedEdge.surface opp_edge)
         >? Surface_rank (minimal_allowed_surface_ this))
     || DirectedEdge.is_shortcut opp_edge
     || IsUserAvoidEdge this opp_edgeid
     || Use_eqb (DirectedEdge.use opp_edge) kTransitConnection
  then false
  else true.

(** [Allowed(node)]. *)
Definition Allowed_node (this : t) (node : NodeInfo.t) : bool :=
  negb (Z.land (NodeInfo.access node) (access_mask_ this) =? 0).

Local Open Scope Q_scope.

(** [EdgeCost(edge)]. *)
Definition EdgeCost (this : t) (edge : DirectedEdge.t) : Cost :=
  if Use_eqb (DirectedEdge.use edge) kFerry then
    let sec := inject_Z (DirectedEdge.length edge) * (kSecPerHour * (1 # 1000))
               / inject_Z (DirectedEdge.speed edge) in
    mkCost (sec * ferry_weight_ this) sec
  else
    let sec := inject_Z (DirectedEdge.length edge) * speedfactor_ this in
    if Use_eqb (DirectedEdge.use edge) kFootway then
      mkCost (sec * walkway_factor_ this) sec
    else if Use_eqb (DirectedEdge.use edge) kAlley then
      mkCost (sec * alley_factor_ this) sec
    else if Use_eqb (DirectedEdge.use edge) kDriveway then
      mkCost (sec * driveway_factor_ this) sec
    else if Use_eqb (DirectedEdge.use edge) kSidewalk then
      mkCost (sec * sidewalk_factor_ this) sec
    else if DirectedEdge.roundabout edge then
      mkCost (sec * kRoundaboutFactor) sec
    else
      mkCost sec sec.

(** [kCrossingCosts[i]]; [stopimpact] is a three-bit field, so the index is
    within the table. *)
Definition crossing_cost (i : Z) : Q :=
  inject_Z (default 0%Z (kCrossingCosts !! Z.to_nat i)).

(** [TransitionCost(edge, node, pred)]. *)
Definition TransitionCost (this : t) (edge : DirectedEdge.t)
    (node : NodeInfo.t) (pred : EdgeLabel.t) : Cost :=
  if Use_eqb (DirectedEdge.use edge) kSteps then
    mkCost (step_penalty_ this) 0
  else
    let seconds := 0 in
    let penalty := 0 in
    let '(seconds, penalty) :=
      if NodeType_eqb (NodeInfo.type node) kBorderControl then
        (seconds + country_crossing_cost_ this,
         penalty + country_crossing_penalty_ this)
      else if NodeType_eqb (NodeInfo.type node) kGate then
        (seconds, penalty + gate_penalty_ this)
      else (seconds, penalty) in
    let '(seconds, penalty) :=
      if negb (Use_eqb (EdgeLabel.use pred) kFerry)
         && Use_eqb (DirectedEdge.use edge) kFerry then
        (seconds + ferry_cost_ this, penalty + ferry_penalty_ this)
      else (seconds, penalty) in
    let idx := EdgeLabel.opp_local_idx pred in
    let penalty :=
      if negb (DirectedEdge.link edge)
         && negb (NodeInfo.name_consistency node idx
                    (DirectedEdge.localedgeidx edge)) then
        penalty + maneuver_penalty_ this
      else penalty in
    let seconds :=
      if DirectedEdge.edge_to_right edge idx
         && DirectedEdge.edge_to_left edge idx then
        seconds + crossing_cost (DirectedEdge.stopimpact edge idx)
      else seconds in
    mkCost (seconds + penalty) seconds.

(** [TransitionCostReverse(idx, node, pred, edge)]. *)
Definition TransitionCostReverse (this : t) (idx : Z) (node : NodeInfo.t)
    (pred : DirectedEdge.t) (edge : DirectedEdge.t) : Cost :=
  if Use_eqb (DirectedEdge.use edge) kSteps then
    mkCost (step_penalty_ this) 0
  else
    let seconds := 0 in
    let penalty := 0 in
    let '(seconds, penalty) :=
      if NodeType_eqb (NodeInfo.type node) kBorderControl then
        (seconds + country_crossing_cost_ this,
         penalty + country_crossing_penalty_ this)
      else if NodeType_eqb (NodeInfo.type node) kGate then
        (seconds, penalty + gate_penalty_ this)
      else (seconds, penalty) in
    let '(seconds, penalty) :=
      if negb (Use_eqb (DirectedEdge.use pred) kFerry)
         && Use_eqb (DirectedEdge.use edge) kFerry then
        (seconds + ferry_cost_ this, penalty + ferry_penalty_ this)
      else (seconds, penalty) in
    let penalty :=
      if negb (DirectedEdge.link edge)
         && negb (NodeInfo.name_consistency node idx
                    (DirectedEdge.localedgeidx edge)) then
        penalty + maneuver_penalty_ this
      else penalty in
    let seconds :=
      if DirectedEdge.edge_to_right edge idx
         && DirectedEdge.edge_to_left edge idx then
        seconds + crossing_cost (DirectedEdge.stopimpact edge idx)
      else seconds in
    mkCost (seconds + penalty) seconds.

(** [AStarCostFactor()]. *)
Definition AStarCostFactor (this : t) : Q :=
  if Qlt_le_dec (walkway_factor_ this) 1
  then walkway_factor_ this * speedfactor_ this
  else speedfactor_ this.

Local Close Scope Q_scope.

(** [travel_type()]: the type as [uint8_t]. *)
Definition travel_type (this : t) : Z := PedestrianType_code (type_ this).

(** *** Calls on a shared object

    A call names a method of the capability set with its arguments; invoking
    it on an object gives the returned value and the object after the call.
    A [const] method returns the object it was given. *)

Inductive value : Type :=
| VUnit
| VBool (b : bool)
| VUint (n : Z)
| VFloat (x : Q)
| VCost (c : Cost).

Inductive method_call : Type :=
| call_Allowed (edge : DirectedEdge.t) (pred : EdgeLabel.t) (edgeid : GraphId)
| call_AllowedReverse (edge : DirectedEdge.t) (pred : EdgeLabel.t)
    (opp_edge : DirectedEdge.t) (opp_edgeid : GraphId)
| call_Allowed_node (node : NodeInfo.t)
| call_EdgeCost (edge : DirectedEdge.t)
| call_TransitionCost (edge : DirectedEdge.t) (node : NodeInfo.t)
    (pred : EdgeLabel.t)
| call_TransitionCostReverse (idx : Z) (node : NodeInfo.t)
    (pred : DirectedEdge.t) (edge : DirectedEdge.t)
| call_AStarCostFactor
| call_UseMaxMultiModalDistance
| call_GetMaxTransferDistanceMM
| call_GetModeWeight
| call_access_mode
| call_travel_type.

Definition const_method {A : Type} (wrap : A -> value) (f : t -> A)
    (this : t) : value * t :=
  (wrap (f this), this).

Definition mutable_method {A : Type} (wrap : A -> value) (f : t -> A * t)
    (this : t) : value * t :=
  (wrap (fst (f this)), snd (f this)).

Definition invoke (c : method_call) : t -> value * t :=
  match c with
  | call_Allowed edge pred edgeid =>
      const_method VBool (fun this => Allowed this edge pred edgeid)
  | call_AllowedReverse edge pred opp_edge opp_edgeid =>
      const_method VBool
        (fun this => AllowedReverse this edge pred opp_edge opp_edgeid)
  | call_Allowed_node node =>
      const_method VBool (fun this => Allowed_node this node)
  | call_EdgeCost edge =>
      const_method VCost (fun this => EdgeCost this edge)
  | call_TransitionCost edge node pred =>
      const_method VCost (fun this => TransitionCost this edge node pred)
  | call_TransitionCostReverse idx node pred edge =>
      const_method VCost
        (fun this => TransitionCostReverse this idx node pred edge)
  | call_AStarCostFactor => const_method VFloat AStarCostFactor
  | call_UseMaxMultiModalDistance =>
      mutable_method (fun _ : unit => VUnit) UseMaxMultiModalDistance
  | call_GetMaxTransferDistanceMM =>
      mutable_method VUint GetMaxTransferDistanceMM
  | call_GetModeWeight => mutable_method VFloat GetModeWeight
  | call_access_mode => const_method VUint access_mode
  | call_travel_type => const_method VUint travel_type
  end.

(** *** Filters for the location search

    Each is a closure over a copy of [access_mask_]. *)

(** [GetEdgeFilter()]. *)
Definition GetEdgeFilter (this : t) : SearchEdge.t -> bool :=
  let access_mask := access_mask_ this in
  fun edge =>
    negb (SearchEdge.trans_up edge
          || SearchEdge.trans_down edge
          || DirectedEdge.is_shortcut (SearchEdge.edge edge)
          || SearchEdge.use_at_least_kRail edge
          || (Z.land (DirectedEdge.forwardaccess (SearchEdge.edge edge))
                     access_mask =? 0)).

(** [GetNodeFilter()]. *)
Definition GetNodeFilter (this : t) : NodeInfo.t -> bool :=
  let access_mask := access_mask_ this in
  fun node => Z.land (NodeInfo.access node) access_mask =? 0.

End PedestrianCost.

(** ** The edge cost as the specification words it

    Time is length times a seconds-per-meter factor; cost is that time times
    one multiplier chosen by precedence. *)

Definition spec_time_factor (this : PedestrianCost.t) (edge : DirectedEdge.t)
    : Q :=
  match DirectedEdge.use edge with
  | kFerry => kSecPerHour * (1 # 1000) / inject_Z (DirectedEdge.speed edge)
  | _ => PedestrianCost.speedfactor_ this
  end.

Definition spec_multiplier (this : PedestrianCost.t) (edge : DirectedEdge.t)
    : Q :=
  match DirectedEdge.use edge with
  | kFerry => PedestrianCost.ferry_weight_ this
  | kFootway => PedestrianCost.walkway_factor_ this
  | kAlley => PedestrianCost.alley_factor_ this
  | kDriveway => PedestrianCost.driveway_factor_ this
  | kSidewalk => PedestrianCost.sidewalk_factor_ this
  | _ => if DirectedEdge.roundabout edge then kRoundaboutFactor else 1
  end.

(** The default case of the precedence: no favoured or avoided use, not a
    roundabout member. *)
Definition spec_default_case (edge : DirectedEdge.t) : bool :=
  match DirectedEdge.use edge with
  | kFerry | kFootway | kAlley | kDriveway | kSidewalk => false
  | _ => negb (DirectedEdge.roundabout edge)
  end.

(** ** Sample data *)

Module Sample.

Definition no_options : gmap string pdata := ∅.

Definition fast_walker : gmap string pdata :=
  {[ "walking_speed" := PNumber 100; "type" := PString "foot" ]}.

Definition negative_step_penalty : gmap string pdata :=
  {[ "step_penalty" := PNumber (-5); "type" := PString "foot" ]}.

Definition segway : gmap string pdata :=
  {[ "type" := PString "segway" ]}.

Definition ferry_dial (d : Q) : gmap string pdata :=
  {[ "use_ferry" := PNumber d ]}.

Definition edge_of (u : Use) (len spd : Z) : DirectedEdge.t :=
  DirectedEdge.Build len u kPaved kPedestrianAccess spd false false false 1
    (fun _ => true) (fun _ => true) (fun _ => 4).

Definition node_of (ty : NodeType) : NodeInfo.t :=
  NodeInfo.Build ty kPedestrianAccess (fun _ _ => false).

Definition label_of (u : Use) (dist : Z) : EdgeLabel.t :=
  EdgeLabel.Build dist u 0.

(** An object switched to allow transit connections, as a multimodal search
    sets it up. *)
Definition multimodal (p : PedestrianCost.t) : PedestrianCost.t :=
  PedestrianCost.Build true
    (PedestrianCost.user_avoid_edges_ p) (PedestrianCost.type_ p)
    (PedestrianCost.access_mask_ p) (PedestrianCost.max_distance_ p)
    (PedestrianCost.mode_weight_ p)
    (PedestrianCost.transit_start_end_max_distance_ p)
    (PedestrianCost.transit_transfer_max_distance_ p)
    (PedestrianCost.minimal_allowed_surface_ p) (PedestrianCost.max_grade_ p)
    (PedestrianCost.speed_ p) (PedestrianCost.speedfactor_ p)
    (PedestrianCost.walkway_factor_ p) (PedestrianCost.sidewalk_factor_ p)
    (PedestrianCost.alley_factor_ p) (PedestrianCost.driveway_factor_ p)
    (PedestrianCost.step_penalty_ p) (PedestrianCost.gate_penalty_ p)
    (PedestrianCost.maneuver_penalty_ p)
    (PedestrianCost.country_crossing_cost_ p)
    (PedestrianCost.country_crossing_penalty_ p)
    (PedestrianCost.ferry_cost_ p) (PedestrianCost.ferry_penalty_ p)
    (PedestrianCost.ferry_weight_ p) (PedestrianCost.use_ferry_ p).

End Sample.

(** ** Field-wise comparison of two objects *)

(** Every data member of [p'] other than [max_distance_] has the value it has
    in [p]. *)
Definition same_except_max_distance (p p' : PedestrianCost.t) : Prop :=
  PedestrianCost.allow_transit_connections_ p'
  = PedestrianCost.allow_transit_connections_ p
  /\ PedestrianCost.user_avoid_edges_ p' = PedestrianCost.user_avoid_edges_ p
  /\ PedestrianCost.type_ p' = PedestrianCost.type_ p
  /\ PedestrianCost.access_mask_ p' = PedestrianCost.access_mask_ p
  /\ PedestrianCost.mode_weight_ p' = PedestrianCost.mode_weight_ p
  /\ PedestrianCost.transit_start_end_max_distance_ p'
     = PedestrianCost.transit_start_end_max_distance_ p
  /\ PedestrianCost.transit_transfer_max_distance_ p'
     = PedestrianCost.transit_transfer_max_distance_ p
  /\ PedestrianCost.minimal_allowed_surface_ p'
     = PedestrianCost.minimal_allowed_surface_ p
  /\ PedestrianCost.max_grade_ p' = PedestrianCost.max_grade_ p
  /\ PedestrianCost.speed_ p' = PedestrianCost.speed_ p
  /\ PedestrianCost.speedfactor_ p' = PedestrianCost.speedfactor_ p
  /\ PedestrianCost.walkway_factor_ p' = PedestrianCost.walkway_factor_ p
  /\ PedestrianCost.sidewalk_factor_ p' = PedestrianCost.sidewalk_factor_ p
  /\ PedestrianCost.alley_factor_ p' = PedestrianCost.alley_factor_ p
  /\ PedestrianCost.driveway_factor_ p' = PedestrianCost.driveway_factor_ p
  /\ PedestrianCost.step_penalty_ p' = PedestrianCost.step_penalty_ p
  /\ PedestrianCost.gate_penalty_ p' = PedestrianCost.gate_penalty_ p
  /\ PedestrianCost.maneuver_penalty_ p' = PedestrianCost.maneuver_penalty_ p
  /\ PedestrianCost.country_crossing_cost_ p'
     = PedestrianCost.country_crossing_cost_ p
  /\ PedestrianCost.country_crossing_penalty_ p'
     = PedestrianCost.country_crossing_penalty_ p
  /\ PedestrianCost.ferry_cost_ p' = PedestrianCost.ferry_cost_ p
  /\ PedestrianCost.ferry_penalty_ p' = PedestrianCost.ferry_penalty_ p
  /\ PedestrianCost.ferry_weight_ p' = PedestrianCost.ferry_weight_ p
  /\ PedestrianCost.use_ferry_ p' = PedestrianCost.use_ferry_ p.

(** The type-dependent options of an object built from [pt] are the ones of
    the foot branch of the constructor. *)
Definition foot_parameterization (pt : gmap string pdata)
    (p : PedestrianCost.t) : Prop :=
  PedestrianCost.access_mask_ p = kPedestrianAccess
  /\ PedestrianCost.max_distance_ p
     = get_uint32 pt "max_distance" kMaxDistanceFoot
  /\ PedestrianCost.speed_ p = get_float pt "walking_speed" kDefaultSpeedFoot
  /\ PedestrianCost.step_penalty_ p
     = get_float pt "step_penalty" kDefaultStepPenaltyFoot
  /\ PedestrianCost.max_grade_ p
     = float_to_uint32 (get_float pt "max_grade" (inject_Z kDefaultMaxGradeFoot))
  /\ PedestrianCost.minimal_allowed_surface_ p = kPath.

(** ** Validated objects

    The declared ranges, read as a predicate on the data members they govern;
    the type-dependent ranges follow [type_]. *)
Definition fields_in_range (p : PedestrianCost.t) : Prop :=
  let wheelchair :=
    match PedestrianCost.type_ p with kWheelchair => true | _ => false end in
  in_range (if wheelchair then kMaxDistanceWheelchairRange
            else kMaxDistanceFootRange)
    (inject_Z (PedestrianCost.max_distance_ p))
  /\ in_range (if wheelchair then kSpeedWheelchairRange else kSpeedFootRange)
       (PedestrianCost.speed_ p)
  /\ in_range (if wheelchair then kStepPenaltyWheelchairRange
               else kStepPenaltyFootRange)
       (PedestrianCost.step_penalty_ p)
  /\ in_range (if wheelchair then kMaxGradeWheelchairRange
               else kMaxGradeFootRange)
       (inject_Z (PedestrianCost.max_grade_ p))
  /\ in_range kModeWeightRange (PedestrianCost.mode_weight_ p)
  /\ in_range kManeuverPenaltyRange (PedestrianCost.maneuver_penalty_ p)
  /\ in_range kGatePenaltyRange (PedestrianCost.gate_penalty_ p)
  /\ in_range kWalkwayFactorRange (PedestrianCost.walkway_factor_ p)
  /\ in_range kSideWalkFactorRange (PedestrianCost.sidewalk_factor_ p)
  /\ in_range kAlleyFactorRange (PedestrianCost.alley_factor_ p)
  /\ in_range kDrivewayFactorRange (PedestrianCost.driveway_factor_ p)
  /\ in_range kFerryCostRange (PedestrianCost.ferry_cost_ p)
  /\ in_range kCountryCrossingCostRange
       (PedestrianCost.country_crossing_cost_ p)
  /\ in_range kCountryCrossingPenaltyRange
       (PedestrianCost.country_crossing_penalty_ p)
  /\ in_range kUseFerryRange (PedestrianCost.use_ferry_ p)
  /\ in_range kTransitStartEndMaxDistanceRange
       (inject_Z (PedestrianCost.transit_start_end_max_distance_ p))
  /\ in_range kTransitTransferMaxDistanceRange
       (inject_Z (PedestrianCost.transit_transfer_max_distance_ p)).

(** Both components of a cost are nonnegative. *)
Definition Cost_nonneg (c : Cost) : Prop := (0 <= cost c /\ 0 <= secs c)%Q.

(** The data members that enter a cost are nonnegative. *)
Definition cost_fields_nonneg (p : PedestrianCost.t) : Prop :=
  (0 <= PedestrianCost.speedfactor_ p
   /\ 0 <= PedestrianCost.walkway_factor_ p
   /\ 0 <= PedestrianCost.sidewalk_factor_ p
   /\ 0 <= PedestrianCost.alley_factor_ p
   /\ 0 <= PedestrianCost.driveway_factor_ p
   /\ 0 <= PedestrianCost.step_penalty_ p
   /\ 0 <= PedestrianCost.gate_penalty_ p
   /\ 0 <= PedestrianCost.maneuver_penalty_ p
   /\ 0 <= PedestrianCost.country_crossing_cost_ p
   /\ 0 <= PedestrianCost.country_crossing_penalty_ p
   /\ 0 <= PedestrianCost.ferry_cost_ p
   /\ 0 <= PedestrianCost.ferry_penalty_ p
   /\ 0 <= PedestrianCost.ferry_weight_ p)%Q.

(** ** The keys the constructor reads *)

Definition recognized_keys : list string :=
  [ "type"; "max_distance"; "walking_speed"; "step_penalty"; "max_grade";
    "mode_weight"; "maneuver_penalty"; "gate_penalty"; "walkway_factor";
    "sidewalk_factor"; "alley_factor"; "driveway_factor"; "ferry_cost";
    "country_crossing_cost"; "country_crossing_penalty";
    "transit_start_end_max_distance"; "transit_transfer_max_distance";
    "use_ferry" ].

(** The keys read as numbers. *)
Definition numeric_keys : list string :=
  [ "max_distance"; "walking_speed"; "step_penalty"; "max_grade";
    "mode_weight"; "maneuver_penalty"; "gate_penalty"; "walkway_factor";
    "sidewalk_factor"; "alley_factor"; "driveway_factor"; "ferry_cost";
    "country_crossing_cost"; "country_crossing_penalty";
    "transit_start_end_max_distance"; "transit_transfer_max_distance";
    "use_ferry" ].

(** ** The inline test of the option ranges *)

(** [make_pedestriancost_from_json(property, testVal, type)]: the object
    built from the JSON text [{"property": testVal, "type": "type"}].  The
    property comes first in the text, so it is the one found should it be
    spelled [type]. *)
Definition make_pedestriancost_from_json (property : string) (testVal : Q)
    (type : string) : PedestrianCost.t :=
  PedestrianCost.PedestrianCost
    (<[property := PNumber testVal]> {[ "type" := PString type ]}).

(** The condition under which a loop of [testPedestrianCostParams] throws:
    [field < range.min || field > range.max]. *)
Definition outside_range (range : ranged_default_t) (field : Q) : bool :=
  (if Qlt_le_dec field (range_min range) then true else false)
  || (if Qlt_le_dec (range_max range) field then true else false).

(** One iteration of a loop of [testPedestrianCostParams] on the sample [x]:
    [true] when it throws. *)
Definition param_test (property type : string)
    (field : PedestrianCost.t -> Q) (range : ranged_default_t) (x : Q)
    : bool :=
  outside_range range (field (make_pedestriancost_from_json property x type)).

(** The loops on the type-dependent float options, with the keys as the
    source spells them. *)
Definition test_speed_wheelchair : Q -> bool :=
  param_test "walking_speed" "wheelchair" PedestrianCost.speed_
    kSpeedWheelchairRange.

Definition test_step_penalty_wheelchair : Q -> bool :=
  param_test "step_penalty" "wheelchair" PedestrianCost.step_penalty_
    kStepPenaltyWheelchairRange.

Definition test_speed_foot : Q -> bool :=
  param_test "walking_speed" "foot" PedestrianCost.speed_ kSpeedFootRange.

Definition test_step_penalty_foot : Q -> bool :=
  param_test "step_penalty_" "foot" PedestrianCost.step_penalty_
    kStepPenaltyFootRange.

Definition test_max_grade_foot : Q -> bool :=
  param_test "max_grade_" "foot"
    (fun p => inject_Z (PedestrianCost.max_grade_ p)) kMaxGradeFootRange.

(** Membership of a literal key in a literal list of keys. *)
Ltac key_in_list :=
  repeat first [ apply list_elem_of_here | apply list_elem_of_further ].

(** ** Properties *)

Import PedestrianCost.

Lemma Use_eqb_eq (a b : Use) : Use_eqb a b = true <-> a = b.
Proof. destruct a, b; simpl; split; intro H; congruence. Qed.

Lemma Use_eqb_neq (a b : Use) : Use_eqb a b = false <-> a <> b.
Proof. destruct a, b; simpl; split; intro H; congruence. Qed.

Lemma NodeType_eqb_eq (a b : NodeType) : NodeType_eqb a b = true <-> a = b.
Proof. destruct a, b; simpl; split; intro H; congruence. Qed.

(** *** Forward and reverse transition costs *)

(** C5: when the reverse call receives the label's opposing local index and
    a predecessor edge with the label's use, [TransitionCost] and
    [TransitionCostReverse] return the same [Cost]. *)
Theorem TransitionCost_reverse_agree
    (this : t) (edge : DirectedEdge.t) (node : NodeInfo.t)
    (pred : EdgeLabel.t) (predEdge : DirectedEdge.t) (idx : Z) :
  idx = EdgeLabel.opp_local_idx pred ->
  DirectedEdge.use predEdge = EdgeLabel.use pred ->
  TransitionCost this edge node pred
  = TransitionCostReverse this idx node predEdge edge.
Proof.
  intros Hidx Huse.
  unfold TransitionCost, TransitionCostReverse.
  rewrite Hidx, Huse.
  reflexivity.
Qed.

Lemma TransitionCost_reverse_agree_witness :
  TransitionCost (PedestrianCost Sample.no_options)
    (Sample.edge_of kFerry 100 20) (Sample.node_of kBorderControl)
    (Sample.label_of kRoad 50)
  = TransitionCostReverse (PedestrianCost Sample.no_options) 0
      (Sample.node_of kBorderControl) (Sample.edge_of kRoad 70 0)
      (Sample.edge_of kFerry 100 20).
Proof.
  apply TransitionCost_reverse_agree; reflexivity.
Defined.

(** *** Edge cost *)

(** C7: [EdgeCost] returns as time the edge length times the seconds-per-meter
    factor (derived from the edge's own speed on a ferry) and as cost that
    time times the multiplier chosen by precedence; in the default case cost
    and time are the same value. *)
Theorem EdgeCost_refines_spec (this : t) (edge : DirectedEdge.t) :
  (secs (EdgeCost this edge)
   == inject_Z (DirectedEdge.length edge) * spec_time_factor this edge)%Q
  /\ (cost (EdgeCost this edge)
      == secs (EdgeCost this edge) * spec_multiplier this edge)%Q
  /\ (spec_default_case edge = true ->
      cost (EdgeCost this edge) = secs (EdgeCost this edge)).
Proof.
  unfold EdgeCost, spec_time_factor, spec_multiplier, spec_default_case.
  destruct (DirectedEdge.use edge), (DirectedEdge.roundabout edge);
    simpl; repeat split; try discriminate; try reflexivity;
    try (unfold Qdiv; ring).
Qed.

(** *** Access on the reverse path *)

(** C9: [AllowedReverse] holds exactly when the opposing edge has an access
    bit of the profile, a surface no worse than the minimal allowed one, is
    not a shortcut, is not user-avoided and is not a transit connection; the
    result does not depend on the edge or the predecessor label (so on no
    accumulated distance), and a transit connection is rejected also by an
    object that allows transit connections. *)
Theorem AllowedReverse_decides
    (this : t) (edge : DirectedEdge.t) (pred : EdgeLabel.t)
    (opp_edge : DirectedEdge.t) (opp_edgeid : GraphId) :
  (AllowedReverse this edge pred opp_edge opp_edgeid = true <->
     Z.land (DirectedEdge.forwardaccess opp_edge) (access_mask_ this) <> 0
     /\ Surface_rank (DirectedEdge.surface opp_edge)
        <= Surface_rank (minimal_allowed_surface_ this)
     /\ DirectedEdge.is_shortcut opp_edge = false
     /\ (opp_edgeid ∉ user_avoid_edges_ this)
     /\ DirectedEdge.use opp_edge <> kTransitConnection)
  /\ (forall (edge' : DirectedEdge.t) (pred' : EdgeLabel.t),
        AllowedReverse this edge' pred' opp_edge opp_edgeid
        = AllowedReverse this edge pred opp_edge opp_edgeid)
  /\ (allow_transit_connections_ this = true ->
      DirectedEdge.use opp_edge = kTransitConnection ->
      AllowedReverse this edge pred opp_edge opp_edgeid = false).
Proof.
  unfold AllowedReverse, IsUserAvoidEdge.
  split; [|split].
  - destruct (Z.eqb_spec (Z.land (DirectedEdge.forwardaccess opp_edge)
                                 (access_mask_ this)) 0) as [Hacc|Hacc];
      simpl; [split; [discriminate | intros [? _]; contradiction]|].
    destruct (Z.gtb_spec (Surface_rank (DirectedEdge.surface opp_edge))
                (Surface_rank (minimal_allowed_surface_ this))) as [Hs|Hs];
      simpl; [split; [discriminate | intros (_ & ? & _); lia]|].
    destruct (DirectedEdge.is_shortcut opp_edge); simpl;
      [split; [discriminate | intros (_ & _ & ? & _); discriminate]|].
    destruct (decide (opp_edgeid ∈ user_avoid_edges_ this)) as [Hin|Hin].
    + rewrite bool_decide_eq_true_2 by exact Hin. simpl.
      split; [discriminate | intros (_ & _ & _ & ? & _); contradiction].
    + rewrite bool_decide_eq_false_2 by exact Hin. simpl.
      destruct (Use_eqb (DirectedEdge.use opp_edge) kTransitConnection) eqn:Hu.
      * apply Use_eqb_eq in Hu.
        split; [discriminate | intros (_ & _ & _ & _ & ?); contradiction].
      * apply Use_eqb_neq in Hu.
        split; [intros _; repeat split; auto; lia | reflexivity].
  - reflexivity.
  - intros _ Hu. rewrite Hu. simpl.
    rewrite !orb_true_r. reflexivity.
Qed.

Lemma AllowedReverse_decides_witness :
  AllowedReverse (Sample.multimodal (PedestrianCost Sample.no_options))
    (Sample.edge_of kRoad 10 0) (Sample.label_of kRoad 0)
    (Sample.edge_of kTransitConnection 10 0) 7 = false.
Proof.
  apply (AllowedReverse_decides
           (Sample.multimodal (PedestrianCost Sample.no_options))
           (Sample.edge_of kRoad 10 0) (Sample.label_of kRoad 0)
           (Sample.edge_of kTransitConnection 10 0) 7);
    reflexivity.
Defined.

(** *** Pedestrian types *)

(** C10: a settings object whose type is not "wheelchair" gets the foot
    parameterization (access mask, maximum distance, speed, step penalty,
    maximum grade and minimal surface, each with its foot default), and with
    type "segway" the object reports the segway travel type. *)
Theorem segway_has_foot_parameterization
    (pt : gmap string pdata) (ty : string) :
  get_string pt "type" "foot" = ty ->
  ty <> "wheelchair" ->
  foot_parameterization pt (PedestrianCost pt)
  /\ (ty = "segway" ->
      travel_type (PedestrianCost pt) = PedestrianType_code kSegway).
Proof.
  intros Hty Hnw.
  assert (Hw : String.eqb (get_string pt "type" "foot") "wheelchair" = false).
  { rewrite Hty. apply String.eqb_neq. exact Hnw. }
  unfold foot_parameterization, travel_type, PedestrianCost. simpl.
  rewrite Hw.
  repeat split.
  intros Hs. rewrite Hty, Hs. reflexivity.
Qed.

Lemma segway_has_foot_parameterization_witness :
  foot_parameterization Sample.segway (PedestrianCost Sample.segway)
  /\ ("segway" = "segway" ->
      travel_type (PedestrianCost Sample.segway) = PedestrianType_code kSegway).
Proof.
  apply (segway_has_foot_parameterization Sample.segway "segway").
  - reflexivity.
  - discriminate.
Defined.

(** *** Writes to the object *)

(** C2, as stated, fails: [UseMaxMultiModalDistance] on the default object
    changes [max_distance_]. *)
Lemma UseMaxMultiModalDistance_changes_max_distance :
  max_distance_
    (snd (invoke call_UseMaxMultiModalDistance
            (PedestrianCost Sample.no_options)))
  <> max_distance_ (PedestrianCost Sample.no_options).
Proof. vm_compute. discriminate. Qed.

(** C2, amended: every call other than [UseMaxMultiModalDistance] leaves the
    object as it was; [UseMaxMultiModalDistance] stores
    [transit_start_end_max_distance_] in [max_distance_] and leaves every
    other data member as it was. *)
Theorem invoke_frame (c : method_call) (p : t) :
  (c <> call_UseMaxMultiModalDistance -> snd (invoke c p) = p)
  /\ (c = call_UseMaxMultiModalDistance ->
      max_distance_ (snd (invoke c p)) = transit_start_end_max_distance_ p
      /\ same_except_max_distance p (snd (invoke c p))).
Proof.
  split.
  - intros Hc. destruct c; try reflexivity. contradiction.
  - intros ->. unfold same_except_max_distance. simpl.
    repeat split.
Qed.

Lemma invoke_frame_witness :
  snd (invoke call_GetModeWeight (PedestrianCost Sample.fast_walker))
  = PedestrianCost Sample.fast_walker.
Proof.
  apply (invoke_frame call_GetModeWeight (PedestrianCost Sample.fast_walker)).
  discriminate.
Defined.

(** *** Border control *)

Lemma crossing_cost_nonneg (i : Z) : (0 <= crossing_cost i)%Q.
Proof.
  unfold crossing_cost.
  assert (H : (0 <= default 0 (kCrossingCosts !! Z.to_nat i))%Z).
  { generalize (Z.to_nat i). intros n.
    do 8 (destruct n as [|n]; [simpl; lia|]).
    simpl. lia. }
  unfold Qle. simpl. lia.
Qed.

(** C8, as stated, fails: onto a steps edge the transition at a border-control
    node takes no time, less than the country-crossing cost. *)
Lemma border_control_steps_takes_no_time :
  ~ (country_crossing_cost_ (PedestrianCost Sample.no_options)
     <= secs (TransitionCost (PedestrianCost Sample.no_options)
                (Sample.edge_of kSteps 10 0) (Sample.node_of kBorderControl)
                (Sample.label_of kRoad 0)))%Q.
Proof. vm_compute. intros H. apply H. reflexivity. Qed.

(** C8, amended: at a border-control node, onto an edge that is not steps and
    with a nonnegative ferry cost, the time of [TransitionCost] is at least
    the country-crossing cost. *)
Theorem TransitionCost_border_control
    (this : t) (edge : DirectedEdge.t) (node : NodeInfo.t)
    (pred : EdgeLabel.t) :
  NodeInfo.type node = kBorderControl ->
  DirectedEdge.use edge <> kSteps ->
  (0 <= ferry_cost_ this)%Q ->
  (country_crossing_cost_ this
   <= secs (TransitionCost this edge node pred))%Q.
Proof.
  intros Hnode Hsteps Hferry.
  unfold TransitionCost.
  apply Use_eqb_neq in Hsteps. rewrite Hsteps, Hnode. simpl.
  pose proof (crossing_cost_nonneg
                (DirectedEdge.stopimpact edge (EdgeLabel.opp_local_idx pred)))
    as Hcross.
  destruct (negb (Use_eqb (EdgeLabel.use pred) kFerry)
            && Use_eqb (DirectedEdge.use edge) kFerry);
    destruct (DirectedEdge.edge_to_right edge (EdgeLabel.opp_local_idx pred)
              && DirectedEdge.edge_to_left edge (EdgeLabel.opp_local_idx pred));
    simpl; lra.
Qed.

Lemma TransitionCost_border_control_witness :
  (country_crossing_cost_ (PedestrianCost Sample.no_options)
   <= secs (TransitionCost (PedestrianCost Sample.no_options)
              (Sample.edge_of kFerry 100 20) (Sample.node_of kBorderControl)
              (Sample.label_of kRoad 50)))%Q.
Proof.
  apply TransitionCost_border_control.
  - reflexivity.
  - discriminate.
  - vm_compute. discriminate.
Defined.

(** *** Ferry preference *)

Lemma float_to_uint32_floor (x : Q) :
  (0 <= x)%Q -> (x < inject_Z uint32_modulus)%Q ->
  float_to_uint32 x = Qfloor x.
Proof.
  intros Hlo Hhi.
  assert (Hfl : Qfloor x = Z.quot (Qnum x) (Zpos (Qden x))).
  { destruct x as [n d]. simpl.
    unfold Qle in Hlo. simpl in Hlo.
    symmetry. apply Z.quot_div_nonneg; lia. }
  unfold float_to_uint32, wrap_uint32. rewrite <- Hfl.
  apply Z.mod_small. split.
  - change 0 with (Qfloor 0). apply Qfloor_resp_le. exact Hlo.
  - apply Z.le_lt_trans with (m := Qfloor x); [lia|].
    destruct (Z_lt_le_dec (Qfloor x) uint32_modulus) as [Hlt|Hge];
      [exact Hlt|].
    exfalso. apply (Qlt_not_le _ _ Hhi).
    apply Qle_trans with (y := inject_Z (Qfloor x)).
    + rewrite <- Zle_Qle. exact Hge.
    + apply Qfloor_le.
Qed.




(** *** Loading of options *)

Lemma get_float_absent (pt : gmap string pdata) (key : string) (dflt : Q) :
  pt !! key = None -> get_float pt key dflt = dflt.
Proof. intros H. unfold get_float. rewrite H. reflexivity. Qed.

Lemma get_uint32_absent (pt : gmap string pdata) (key : string) (dflt : Z) :
  pt !! key = None -> get_uint32 pt key dflt = dflt.
Proof. intros H. unfold get_uint32. rewrite H. reflexivity. Qed.

(** A number that is present is returned as it is, whatever its size. *)
Lemma get_float_present (pt : gmap string pdata) (key : string) (dflt q : Q) :
  pt !! key = Some (PNumber q) -> get_float pt key dflt = q.
Proof. intros H. unfold get_float. rewrite H. reflexivity. Qed.

(** An absent walking speed takes the default of the type's range. *)
Lemma walking_speed_absent_default (pt : gmap string pdata) :
  pt !! "walking_speed" = None ->
  speed_ (PedestrianCost pt)
  = range_def (if String.eqb (get_string pt "type" "foot") "wheelchair"
               then kSpeedWheelchairRange else kSpeedFootRange).
Proof.
  intros H. simpl.
  destruct (String.eqb (get_string pt "type" "foot") "wheelchair");
    rewrite get_float_absent by exact H; reflexivity.
Qed.

(** C1: the constructor stores a walking speed of 100 as it is, outside the
    declared range [kSpeedFootRange] = (0.5, 5.1, 25). *)
Theorem walking_speed_not_clamped :
  speed_ (PedestrianCost Sample.fast_walker) = 100%Q
  /\ ~ in_range kSpeedFootRange (speed_ (PedestrianCost Sample.fast_walker)).
Proof.
  split; [reflexivity|].
  intros [_ Hmax]. vm_compute in Hmax. apply Hmax. reflexivity.
Qed.

(** *** Sign of the costs *)

(** C4: with a step penalty of -5 in the settings, the transition onto a
    steps edge has a negative cost. *)
Theorem negative_step_penalty_negative_cost :
  (cost (TransitionCost (PedestrianCost Sample.negative_step_penalty)
           (Sample.edge_of kSteps 10 0) (Sample.node_of kStreetIntersection)
           (Sample.label_of kRoad 0)) < 0)%Q.
Proof. vm_compute. reflexivity. Qed.

Lemma EdgeCost_nonneg (this : t) (edge : DirectedEdge.t) :
  cost_fields_nonneg this ->
  0 <= DirectedEdge.length edge -> 0 <= DirectedEdge.speed edge ->
  Cost_nonneg (EdgeCost this edge).
Proof.
  intros (Hsf & Hw & Hs & Ha & Hd & _ & _ & _ & _ & _ & _ & _ & Hfw)
         Hlen Hspd.
  assert (Hl : (0 <= inject_Z (DirectedEdge.length edge))%Q)
    by (change 0%Q with (inject_Z 0); rewrite <- Zle_Qle; exact Hlen).
  assert (Hv : (0 <= / inject_Z (DirectedEdge.speed edge))%Q).
  { apply Qinv_le_0_compat.
    change 0%Q with (inject_Z 0). rewrite <- Zle_Qle. exact Hspd. }
  assert (Hsec : (0 <= inject_Z (DirectedEdge.length edge)
                      * speedfactor_ this)%Q)
    by (apply Qmult_le_0_compat; assumption).
  assert (Hfsec : (0 <= inject_Z (DirectedEdge.length edge)
                       * (kSecPerHour * (1 # 1000))
                       / inject_Z (DirectedEdge.speed edge))%Q).
  { unfold Qdiv. apply Qmult_le_0_compat; [|exact Hv].
    apply Qmult_le_0_compat; [exact Hl|]. vm_compute. discriminate. }
  unfold Cost_nonneg, EdgeCost.
  destruct (Use_eqb (DirectedEdge.use edge) kFerry); simpl.
  { split; [apply Qmult_le_0_compat|]; assumption. }
  repeat match goal with
         | |- context [if ?b then _ else _] => destruct b; simpl
         end;
    (split; [|exact Hsec]);
    try (apply Qmult_le_0_compat; try assumption);
    try exact Hsec.
  vm_compute. discriminate.
Qed.

Lemma TransitionCost_nonneg (this : t) (edge : DirectedEdge.t)
    (node : NodeInfo.t) (pred : EdgeLabel.t) :
  cost_fields_nonneg this ->
  Cost_nonneg (TransitionCost this edge node pred).
Proof.
  intros (_ & _ & _ & _ & _ & Hst & Hg & Hm & Hcc & Hcp & Hfc & Hfp & _).
  pose proof (crossing_cost_nonneg
                (DirectedEdge.stopimpact edge (EdgeLabel.opp_local_idx pred)))
    as Hcross.
  unfold Cost_nonneg, TransitionCost.
  destruct (Use_eqb (DirectedEdge.use edge) kSteps); simpl; [lra|].
  repeat match goal with
         | |- context [if ?b then _ else _] => destruct b; simpl
         end; lra.
Qed.

Lemma TransitionCostReverse_nonneg (this : t) (idx : Z) (node : NodeInfo.t)
    (pred edge : DirectedEdge.t) :
  cost_fields_nonneg this ->
  Cost_nonneg (TransitionCostReverse this idx node pred edge).
Proof.
  intros (_ & _ & _ & _ & _ & Hst & Hg & Hm & Hcc & Hcp & Hfc & Hfp & _).
  pose proof (crossing_cost_nonneg (DirectedEdge.stopimpact edge idx))
    as Hcross.
  unfold Cost_nonneg, TransitionCostReverse.
  destruct (Use_eqb (DirectedEdge.use edge) kSteps); simpl; [lra|].
  repeat match goal with
         | |- context [if ?b then _ else _] => destruct b; simpl
         end; lra.
Qed.

Lemma ferry_penalty_of_nonneg (d : Q) : (0 <= ferry_penalty_of d)%Q.
Proof.
  unfold ferry_penalty_of.
  destruct (Qlt_le_dec d (1 # 2)); [|lra].
  change 0%Q with (inject_Z 0). rewrite <- Zle_Qle.
  unfold float_to_uint32, wrap_uint32.
  apply Z.mod_pos_bound. reflexivity.
Qed.

Lemma ferry_weight_of_nonneg (d : Q) :
  (0 <= d)%Q -> (d <= 1)%Q -> (0 <= ferry_weight_of d)%Q.
Proof.
  intros Hlo Hhi. unfold ferry_weight_of.
  destruct (Qlt_le_dec d (1 # 2)); lra.
Qed.

(** Options within their declared ranges give nonnegative cost fields: what
    the validation of the input would establish. *)
Lemma fields_in_range_nonneg (pt : gmap string pdata) :
  fields_in_range (PedestrianCost pt) ->
  cost_fields_nonneg (PedestrianCost pt).
Proof.
  intros (_ & Hspeed & Hstep & _ & _ & Hman & Hgate & Hwalk & Hside & Halley
          & Hdrive & Hferry & Hcc & Hcp & Huse & _ & _).
  assert (Hsp : (kMinPedestrianSpeed <= speed_ (PedestrianCost pt))%Q)
    by (destruct (type_ (PedestrianCost pt)); apply Hspeed).
  assert (Hstp : (0 <= step_penalty_ (PedestrianCost pt))%Q)
    by (destruct (type_ (PedestrianCost pt)); apply Hstep).
  unfold cost_fields_nonneg.
  repeat split;
    try (first [apply Hman | apply Hgate | apply Hwalk | apply Hside
               | apply Halley | apply Hdrive | apply Hferry | apply Hcc
               | apply Hcp | exact Hstp]).
  - change (speedfactor_ (PedestrianCost pt))
      with (kSecPerHour * (1 # 1000) / speed_ (PedestrianCost pt))%Q.
    unfold Qdiv. apply Qmult_le_0_compat; [vm_compute; discriminate|].
    apply Qinv_le_0_compat. unfold kMinPedestrianSpeed in Hsp. lra.
  - apply ferry_penalty_of_nonneg.
  - apply ferry_weight_of_nonneg; apply Huse.
Qed.

(** With every option inside its declared range, edge and transition costs
    have nonnegative components, for an edge of nonnegative length whose
    speed is positive when it is a ferry. *)
Lemma in_range_costs_nonneg (pt : gmap string pdata)
    (edge predEdge : DirectedEdge.t) (node : NodeInfo.t) (pred : EdgeLabel.t)
    (idx : Z) :
  fields_in_range (PedestrianCost pt) ->
  0 <= DirectedEdge.length edge ->
  (DirectedEdge.use edge = kFerry -> 0 < DirectedEdge.speed edge) ->
  Cost_nonneg (EdgeCost (PedestrianCost pt) edge)
  /\ Cost_nonneg (TransitionCost (PedestrianCost pt) edge node pred)
  /\ Cost_nonneg
       (TransitionCostReverse (PedestrianCost pt) idx node predEdge edge).
Proof.
  intros Hrange Hlen Hspd.
  pose proof (fields_in_range_nonneg pt Hrange) as Hnn.
  split; [|split].
  - destruct (Use_eqb (DirectedEdge.use edge) kFerry) eqn:Hu.
    + apply Use_eqb_eq in Hu.
      apply EdgeCost_nonneg; [exact Hnn | exact Hlen |].
      specialize (Hspd Hu). lia.
    + clear Hrange. generalize dependent (PedestrianCost pt). intros p Hnn.
      destruct Hnn as (Hsf & Hw & Hs & Ha & Hd & _).
      assert (Hsec : (0 <= inject_Z (DirectedEdge.length edge)
                          * speedfactor_ p)%Q).
      { apply Qmult_le_0_compat; [|exact Hsf].
        change 0%Q with (inject_Z 0). rewrite <- Zle_Qle. exact Hlen. }
      unfold Cost_nonneg, EdgeCost. rewrite Hu.
      repeat match goal with
             | |- context [if ?b then _ else _] => destruct b; simpl
             end;
        (split; [|exact Hsec]);
        try exact Hsec;
        (apply Qmult_le_0_compat; [exact Hsec|]);
        try assumption.
      vm_compute. discriminate.
  - apply TransitionCost_nonneg; assumption.
  - apply TransitionCostReverse_nonneg; assumption.
Qed.

(** *** The A* cost factor *)

(** C3: on the default object, a ferry edge of 1000 m with an edge speed of
    40 km/h costs less per meter than [AStarCostFactor] returns. *)
Theorem AStarCostFactor_above_ferry_cost_per_meter :
  (cost (EdgeCost (PedestrianCost Sample.no_options)
           (Sample.edge_of kFerry 1000 40))
   / inject_Z (DirectedEdge.length (Sample.edge_of kFerry 1000 40))
   < AStarCostFactor (PedestrianCost Sample.no_options))%Q.
Proof. vm_compute. reflexivity. Qed.

(** In exact arithmetic, off ferries the factor is a lower bound of the
    cost per meter as long as no configured multiplier is below the smaller
    of 1 and the walkway factor.  The bound is tight, so the rounding of the
    binary32 products can break it in the last digit. *)
Lemma AStarCostFactor_admissible_off_ferries
    (this : t) (edge : DirectedEdge.t) (m : Q) :
  0 < DirectedEdge.length edge ->
  DirectedEdge.use edge <> kFerry ->
  (0 <= speedfactor_ this)%Q ->
  m = (if Qlt_le_dec (walkway_factor_ this) 1
       then walkway_factor_ this else 1%Q) ->
  (m <= alley_factor_ this)%Q ->
  (m <= driveway_factor_ this)%Q ->
  (m <= sidewalk_factor_ this)%Q ->
  (AStarCostFactor this
   <= cost (EdgeCost this edge) / inject_Z (DirectedEdge.length edge))%Q.
Proof.
  intros Hlen Hnf Hsf Hm Ha Hd Hs.
  assert (Hl : (0 < inject_Z (DirectedEdge.length edge))%Q)
    by (change 0%Q with (inject_Z 0); rewrite <- Zlt_Qlt; exact Hlen).
  apply Qle_shift_div_l; [exact Hl|].
  apply Use_eqb_neq in Hnf.
  unfold AStarCostFactor, EdgeCost. rewrite Hnf.
  assert (Hmul : forall f : Q, (m <= f)%Q ->
            (m * speedfactor_ this * inject_Z (DirectedEdge.length edge)
             <= inject_Z (DirectedEdge.length edge) * speedfactor_ this * f)%Q).
  { intros f Hf.
    setoid_replace
      (inject_Z (DirectedEdge.length edge) * speedfactor_ this * f)%Q
      with (f * speedfactor_ this * inject_Z (DirectedEdge.length edge))%Q
      using relation Qeq by ring.
    apply Qmult_le_compat_r; [|lra].
    apply Qmult_le_compat_r; assumption. }
  assert (Hm1 : (m <= 1)%Q)
    by (rewrite Hm; destruct (Qlt_le_dec (walkway_factor_ this) 1); lra).
  assert (Hmw : (m <= walkway_factor_ this)%Q)
    by (rewrite Hm; destruct (Qlt_le_dec (walkway_factor_ this) 1); lra).
  assert (Hfac : ((if Qlt_le_dec (walkway_factor_ this) 1
                   then walkway_factor_ this * speedfactor_ this
                   else speedfactor_ this) == m * speedfactor_ this)%Q)
    by (rewrite Hm; destruct (Qlt_le_dec (walkway_factor_ this) 1); ring).
  rewrite Hfac.
  repeat match goal with
         | |- context [if ?b then _ else _] => destruct b; simpl
         end;
    try (apply Hmul; assumption).
  - apply Hmul. unfold kRoundaboutFactor. lra.
  - setoid_replace
      (inject_Z (DirectedEdge.length edge) * speedfactor_ this)%Q
      with (inject_Z (DirectedEdge.length edge) * speedfactor_ this * 1)%Q
      using relation Qeq by ring.
    apply Hmul. exact Hm1.
Qed.

(** *** Further facts about the constructor and the transition costs *)

(** The speed factor is the seconds per meter at the stored speed. *)
Lemma speedfactor_of_speed (pt : gmap string pdata) :
  speedfactor_ (PedestrianCost pt)
  = (kSecPerHour * (1 # 1000) / speed_ (PedestrianCost pt))%Q.
Proof. reflexivity. Qed.

(** Onto a steps edge the transition costs the step penalty and no time,
    whatever the node and the predecessor. *)
Lemma TransitionCost_steps (this : t) (edge : DirectedEdge.t)
    (node : NodeInfo.t) (pred : EdgeLabel.t) :
  DirectedEdge.use edge = kSteps ->
  TransitionCost this edge node pred = mkCost (step_penalty_ this) 0.
Proof.
  intros Hu. unfold TransitionCost. rewrite Hu. reflexivity.
Qed.

(** Type "wheelchair" selects the wheelchair access mask and minimal
    surface. *)
Lemma wheelchair_parameterization (pt : gmap string pdata) :
  get_string pt "type" "foot" = "wheelchair" ->
  type_ (PedestrianCost pt) = kWheelchair
  /\ access_mask_ (PedestrianCost pt) = kWheelchairAccess
  /\ minimal_allowed_surface_ (PedestrianCost pt) = kCompacted.
Proof.
  intros Hty. simpl. rewrite Hty. repeat split.
Qed.

(** ** Further properties of the class *)

(** *** Access on the forward path *)

Lemma Z_gtb_leb (a b : Z) : (a >? b) = negb (a <=? b).
Proof. rewrite Z.gtb_ltb. apply Z.ltb_antisym. Qed.

Lemma Allowed_true_iff
    (this : t) (edge : DirectedEdge.t) (pred : EdgeLabel.t)
    (edgeid : GraphId) :
  Allowed this edge pred edgeid = true <->
    Z.land (DirectedEdge.forwardaccess edge) (access_mask_ this) <> 0
    /\ Surface_rank (DirectedEdge.surface edge)
       <= Surface_rank (minimal_allowed_surface_ this)
    /\ DirectedEdge.is_shortcut edge = false
    /\ (edgeid ∉ user_avoid_edges_ this)
    /\ wrap_uint32 (EdgeLabel.path_distance pred + DirectedEdge.length edge)
       <= max_distance_ this
    /\ (allow_transit_connections_ this = true
        \/ DirectedEdge.use edge <> kTransitConnection).
Proof.
  unfold Allowed, IsUserAvoidEdge.
  destruct (Z.eqb_spec (Z.land (DirectedEdge.forwardaccess edge)
                               (access_mask_ this)) 0) as [Hacc|Hacc];
    simpl; [split; [discriminate | intros [? _]; contradiction]|].
  destruct (Z.gtb_spec (Surface_rank (DirectedEdge.surface edge))
              (Surface_rank (minimal_allowed_surface_ this))) as [Hs|Hs];
    simpl; [split; [discriminate | intros (_ & ? & _); lia]|].
  destruct (DirectedEdge.is_shortcut edge); simpl;
    [split; [discriminate | intros (_ & _ & ? & _); discriminate]|].
  destruct (decide (edgeid ∈ user_avoid_edges_ this)) as [Hin|Hin].
  { rewrite bool_decide_eq_true_2 by exact Hin. simpl.
    split; [discriminate | intros (_ & _ & _ & ? & _); contradiction]. }
  rewrite bool_decide_eq_false_2 by exact Hin. simpl.
  destruct (Z.gtb_spec
              (wrap_uint32 (EdgeLabel.path_distance pred
                            + DirectedEdge.length edge))
              (max_distance_ this)) as [Hd|Hd];
    [split; [discriminate | intros (_ & _ & _ & _ & ? & _); lia]|].
  destruct (allow_transit_connections_ this); simpl.
  { split; [intros _; repeat split; auto; lia | reflexivity]. }
  destruct (Use_eqb (DirectedEdge.use edge) kTransitConnection) eqn:Hu.
  - apply Use_eqb_eq in Hu.
    split; [discriminate|].
    intros (_ & _ & _ & _ & _ & [?|?]); [discriminate | contradiction].
  - apply Use_eqb_neq in Hu.
    split; [intros _; repeat split; auto; lia | reflexivity].
Qed.

(** [Allowed] holds exactly when the edge has an access bit of the object, a
    surface no worse than the minimal allowed one, is not a shortcut, is not
    user-avoided, keeps the wrapped sum of path distance and length within
    [max_distance_], and is not a transit connection unless the object
    allows them. *)
Theorem Allowed_decides
    (this : t) (edge : DirectedEdge.t) (pred : EdgeLabel.t)
    (edgeid : GraphId) :
  Allowed this edge pred edgeid = true <->
    Z.land (DirectedEdge.forwardaccess edge) (access_mask_ this) <> 0
    /\ Surface_rank (DirectedEdge.surface edge)
       <= Surface_rank (minimal_allowed_surface_ this)
    /\ DirectedEdge.is_shortcut edge = false
    /\ (edgeid ∉ user_avoid_edges_ this)
    /\ wrap_uint32 (EdgeLabel.path_distance pred + DirectedEdge.length edge)
       <= max_distance_ this
    /\ (allow_transit_connections_ this = true
        \/ DirectedEdge.use edge <> kTransitConnection).
Proof. apply Allowed_true_iff. Qed.

(** On an object that does not allow transit connections, the forward
    predicate is the reverse predicate on the same edge together with the
    distance budget. *)
Theorem Allowed_is_AllowedReverse_within_budget
    (this : t) (edge edge' : DirectedEdge.t) (pred pred' : EdgeLabel.t)
    (edgeid : GraphId) :
  allow_transit_connections_ this = false ->
  Allowed this edge pred edgeid
  = AllowedReverse this edge' pred' edge edgeid
    && (wrap_uint32 (EdgeLabel.path_distance pred + DirectedEdge.length edge)
        <=? max_distance_ this).
Proof.
  intros Hallow. unfold Allowed, AllowedReverse.
  rewrite Hallow, !Z_gtb_leb.
  destruct (Z.land (DirectedEdge.forwardaccess edge) (access_mask_ this)
            =? 0);
    destruct (Surface_rank (DirectedEdge.surface edge)
              <=? Surface_rank (minimal_allowed_surface_ this));
    destruct (DirectedEdge.is_shortcut edge);
    destruct (IsUserAvoidEdge this edgeid);
    destruct (wrap_uint32 (EdgeLabel.path_distance pred
                           + DirectedEdge.length edge)
              <=? max_distance_ this);
    destruct (Use_eqb (DirectedEdge.use edge) kTransitConnection);
    reflexivity.
Qed.

Lemma Allowed_is_AllowedReverse_within_budget_witness :
  Allowed (PedestrianCost Sample.no_options) (Sample.edge_of kRoad 100 0)
    (Sample.label_of kRoad 99950) 3
  = AllowedReverse (PedestrianCost Sample.no_options)
      (Sample.edge_of kFootway 5 0) (Sample.label_of kFerry 0)
      (Sample.edge_of kRoad 100 0) 3
    && (wrap_uint32 (EdgeLabel.path_distance (Sample.label_of kRoad 99950)
                     + DirectedEdge.length (Sample.edge_of kRoad 100 0))
        <=? max_distance_ (PedestrianCost Sample.no_options)).
Proof.
  apply Allowed_is_AllowedReverse_within_budget. reflexivity.
Defined.

(** Without overflow of the sum, an edge allowed after a path is allowed
    after every shorter path. *)
Theorem Allowed_budget_monotone
    (this : t) (edge : DirectedEdge.t) (pred pred' : EdgeLabel.t)
    (edgeid : GraphId) :
  0 <= EdgeLabel.path_distance pred' ->
  EdgeLabel.path_distance pred' <= EdgeLabel.path_distance pred ->
  0 <= DirectedEdge.length edge ->
  EdgeLabel.path_distance pred + DirectedEdge.length edge < uint32_modulus ->
  Allowed this edge pred edgeid = true ->
  Allowed this edge pred' edgeid = true.
Proof.
  intros H0 Hle Hlen Hsum Hal.
  apply Allowed_true_iff in Hal.
  destruct Hal as (Ha & Hs & Hsc & Hav & Hd & Htc).
  apply Allowed_true_iff. repeat split; try assumption.
  unfold wrap_uint32 in *.
  rewrite Z.mod_small in Hd by lia.
  rewrite Z.mod_small by lia. lia.
Qed.

Lemma Allowed_budget_monotone_witness :
  Allowed (PedestrianCost Sample.no_options) (Sample.edge_of kRoad 100 0)
    (Sample.label_of kRoad 50) 3 = true.
Proof.
  apply (Allowed_budget_monotone (PedestrianCost Sample.no_options)
           (Sample.edge_of kRoad 100 0) (Sample.label_of kRoad 99900)
           (Sample.label_of kRoad 50) 3);
    try (vm_compute; congruence); reflexivity.
Defined.

(** When the multimodal distance is not above the maximum distance, an edge
    allowed after [UseMaxMultiModalDistance] was allowed before it, and its
    wrapped distance sum is within [transit_start_end_max_distance_]. *)
Theorem Allowed_after_UseMaxMultiModalDistance
    (this : t) (edge : DirectedEdge.t) (pred : EdgeLabel.t)
    (edgeid : GraphId) :
  transit_start_end_max_distance_ this <= max_distance_ this ->
  Allowed (snd (UseMaxMultiModalDistance this)) edge pred edgeid = true ->
  Allowed this edge pred edgeid = true
  /\ wrap_uint32 (EdgeLabel.path_distance pred + DirectedEdge.length edge)
     <= transit_start_end_max_distance_ this.
Proof.
  intros Hle Hal.
  apply Allowed_true_iff in Hal. simpl in Hal.
  destruct Hal as (Ha & Hs & Hsc & Hav & Hd & Htc).
  split; [|exact Hd].
  apply Allowed_true_iff. repeat split; try assumption. lia.
Qed.

Lemma Allowed_after_UseMaxMultiModalDistance_witness :
  Allowed (PedestrianCost Sample.no_options) (Sample.edge_of kRoad 100 0)
    (Sample.label_of kRoad 2000) 3 = true
  /\ wrap_uint32 (EdgeLabel.path_distance (Sample.label_of kRoad 2000)
                  + DirectedEdge.length (Sample.edge_of kRoad 100 0))
     <= transit_start_end_max_distance_ (PedestrianCost Sample.no_options).
Proof.
  apply Allowed_after_UseMaxMultiModalDistance.
  - vm_compute. discriminate.
  - reflexivity.
Defined.

(** A constructed object rejects transit connections on the forward path,
    also after [UseMaxMultiModalDistance]. *)
Theorem constructed_rejects_transit_connections
    (pt : gmap string pdata) (edge : DirectedEdge.t) (pred : EdgeLabel.t)
    (edgeid : GraphId) :
  DirectedEdge.use edge = kTransitConnection ->
  Allowed (PedestrianCost pt) edge pred edgeid = false
  /\ Allowed (snd (UseMaxMultiModalDistance (PedestrianCost pt)))
       edge pred edgeid = false.
Proof.
  intros Hu.
  split; apply not_true_is_false; intros Hal;
    apply Allowed_true_iff in Hal;
    destruct Hal as (_ & _ & _ & _ & _ & [Hallow|Hne]);
    solve [discriminate Hallow | contradiction].
Qed.

Lemma constructed_rejects_transit_connections_witness :
  Allowed (PedestrianCost Sample.segway)
    (Sample.edge_of kTransitConnection 10 0) (Sample.label_of kRoad 0) 3
  = false
  /\ Allowed (snd (UseMaxMultiModalDistance (PedestrianCost Sample.segway)))
       (Sample.edge_of kTransitConnection 10 0) (Sample.label_of kRoad 0) 3
     = false.
Proof.
  apply constructed_rejects_transit_connections. reflexivity.
Defined.

(** *** Filters for the location search *)

(** The node filter holds exactly on the nodes [Allowed(node)] rejects. *)
Theorem GetNodeFilter_complements_Allowed (this : t) (node : NodeInfo.t) :
  GetNodeFilter this node = negb (Allowed_node this node).
Proof.
  unfold GetNodeFilter, Allowed_node. rewrite negb_involutive. reflexivity.
Qed.

(** An edge passes the edge filter, has an allowed surface, is not
    user-avoided and is not a transit connection exactly when it passes
    [AllowedReverse] as opposing edge and is neither a hierarchy transition
    nor of a use from [kRail] on. *)
Theorem GetEdgeFilter_and_AllowedReverse
    (this : t) (e : SearchEdge.t) (edge : DirectedEdge.t)
    (pred : EdgeLabel.t) (edgeid : GraphId) :
  (GetEdgeFilter this e = true
   /\ Surface_rank (DirectedEdge.surface (SearchEdge.edge e))
      <= Surface_rank (minimal_allowed_surface_ this)
   /\ (edgeid ∉ user_avoid_edges_ this)
   /\ DirectedEdge.use (SearchEdge.edge e) <> kTransitConnection)
  <->
  (AllowedReverse this edge pred (SearchEdge.edge e) edgeid = true
   /\ SearchEdge.trans_up e = false
   /\ SearchEdge.trans_down e = false
   /\ SearchEdge.use_at_least_kRail e = false).
Proof.
  unfold GetEdgeFilter, AllowedReverse, IsUserAvoidEdge.
  destruct (Z.eqb_spec (Z.land (DirectedEdge.forwardaccess (SearchEdge.edge e))
                               (access_mask_ this)) 0) as [Hacc|Hacc];
    destruct (Z.gtb_spec
                (Surface_rank (DirectedEdge.surface (SearchEdge.edge e)))
                (Surface_rank (minimal_allowed_surface_ this))) as [Hs|Hs];
    destruct (SearchEdge.trans_up e), (SearchEdge.trans_down e),
      (SearchEdge.use_at_least_kRail e),
      (DirectedEdge.is_shortcut (SearchEdge.edge e));
    simpl;
    try solve [split; intros (? & ? & ? & ?); first [congruence | lia]].
  destruct (decide (edgeid ∈ user_avoid_edges_ this)) as [Hin|Hin].
  { rewrite bool_decide_eq_true_2 by exact Hin. simpl.
    split; [intros (_ & _ & ? & _); contradiction
           | intros (? & _); discriminate]. }
  rewrite bool_decide_eq_false_2 by exact Hin. simpl.
  destruct (Use_eqb (DirectedEdge.use (SearchEdge.edge e))
              kTransitConnection) eqn:Hu.
  - apply Use_eqb_eq in Hu.
    split; [intros (_ & _ & _ & ?); contradiction
           | intros (? & _); discriminate].
  - apply Use_eqb_neq in Hu.
    split; intros _; repeat split; auto.
Qed.

(** *** [UseMaxMultiModalDistance] and the other methods *)

(** After [UseMaxMultiModalDistance], every call other than the forward
    [Allowed] returns what it returned before, and the two location filters
    are the ones built before. *)
Theorem UseMaxMultiModalDistance_only_affects_Allowed
    (c : method_call) (this : t) :
  (forall edge pred edgeid, c <> call_Allowed edge pred edgeid) ->
  fst (invoke c (snd (UseMaxMultiModalDistance this))) = fst (invoke c this)
  /\ GetEdgeFilter (snd (UseMaxMultiModalDistance this)) = GetEdgeFilter this
  /\ GetNodeFilter (snd (UseMaxMultiModalDistance this)) = GetNodeFilter this.
Proof.
  intros Hc.
  split; [|split; reflexivity].
  destruct c; try reflexivity.
  exfalso. eapply Hc. reflexivity.
Qed.

Lemma UseMaxMultiModalDistance_only_affects_Allowed_witness :
  fst (invoke (call_EdgeCost (Sample.edge_of kSidewalk 100 0))
         (snd (UseMaxMultiModalDistance (PedestrianCost Sample.no_options))))
  = fst (invoke (call_EdgeCost (Sample.edge_of kSidewalk 100 0))
           (PedestrianCost Sample.no_options)).
Proof.
  apply (UseMaxMultiModalDistance_only_affects_Allowed
           (call_EdgeCost (Sample.edge_of kSidewalk 100 0))
           (PedestrianCost Sample.no_options)).
  discriminate.
Defined.

(** [UseMaxMultiModalDistance] is idempotent, and commutes with the two
    getters that are not [const]. *)
Theorem UseMaxMultiModalDistance_idempotent (this : t) :
  snd (UseMaxMultiModalDistance (snd (UseMaxMultiModalDistance this)))
  = snd (UseMaxMultiModalDistance this)
  /\ snd (UseMaxMultiModalDistance (snd (GetModeWeight this)))
     = snd (GetModeWeight (snd (UseMaxMultiModalDistance this)))
  /\ snd (UseMaxMultiModalDistance (snd (GetMaxTransferDistanceMM this)))
     = snd (GetMaxTransferDistanceMM (snd (UseMaxMultiModalDistance this))).
Proof. repeat split. Qed.

(** *** What the constructor reads *)

Lemma PedestrianCost_agree (pt pt' : gmap string pdata) :
  (forall key : string, key ∈ recognized_keys -> pt !! key = pt' !! key) ->
  PedestrianCost pt = PedestrianCost pt'.
Proof.
  intros H.
  unfold PedestrianCost, get_string, get_float, get_uint32.
  rewrite !(H "type" ltac:(key_in_list)),
    !(H "max_distance" ltac:(key_in_list)),
    !(H "walking_speed" ltac:(key_in_list)),
    !(H "step_penalty" ltac:(key_in_list)),
    !(H "max_grade" ltac:(key_in_list)),
    !(H "mode_weight" ltac:(key_in_list)),
    !(H "maneuver_penalty" ltac:(key_in_list)),
    !(H "gate_penalty" ltac:(key_in_list)),
    !(H "walkway_factor" ltac:(key_in_list)),
    !(H "sidewalk_factor" ltac:(key_in_list)),
    !(H "alley_factor" ltac:(key_in_list)),
    !(H "driveway_factor" ltac:(key_in_list)),
    !(H "ferry_cost" ltac:(key_in_list)),
    !(H "country_crossing_cost" ltac:(key_in_list)),
    !(H "country_crossing_penalty" ltac:(key_in_list)),
    !(H "transit_start_end_max_distance" ltac:(key_in_list)),
    !(H "transit_transfer_max_distance" ltac:(key_in_list)),
    !(H "use_ferry" ltac:(key_in_list)).
  reflexivity.
Qed.

(** The data members the constructor body assigns depend on the settings
    only through the eighteen keys the body reads.  What the base-class
    initializer [DynamicCost(pt, TravelMode::kPedestrian)] reads of the tree
    is declared outside this translation unit and is no part of the
    statement. *)
Theorem PedestrianCost_reads_recognized_keys (pt pt' : gmap string pdata) :
  (forall key : string, key ∈ recognized_keys -> pt !! key = pt' !! key) ->
  PedestrianCost pt = PedestrianCost pt'.
Proof. apply PedestrianCost_agree. Qed.

Lemma PedestrianCost_reads_recognized_keys_witness :
  PedestrianCost Sample.segway
  = PedestrianCost (<["units" := PString "miles"]> Sample.segway).
Proof.
  apply PedestrianCost_reads_recognized_keys.
  intros key Hin. symmetry. apply lookup_insert_ne.
  intros <-. revert Hin.
  apply (bool_decide_unpack ("units" ∉ recognized_keys)).
  vm_compute. exact I.
Defined.

Lemma get_float_insert_ne (pt : gmap string pdata) (k key : string)
    (v : pdata) (dflt : Q) :
  k <> key -> get_float (<[k := v]> pt) key dflt = get_float pt key dflt.
Proof.
  intros Hne. unfold get_float. rewrite lookup_insert_ne by exact Hne.
  reflexivity.
Qed.

Lemma get_uint32_insert_ne (pt : gmap string pdata) (k key : string)
    (v : pdata) (dflt : Z) :
  k <> key -> get_uint32 (<[k := v]> pt) key dflt = get_uint32 pt key dflt.
Proof.
  intros Hne. unfold get_uint32. rewrite lookup_insert_ne by exact Hne.
  reflexivity.
Qed.

Lemma get_string_insert_eq (pt : gmap string pdata) (k s dflt : string) :
  get_string (<[k := PString s]> pt) k dflt = s.
Proof. unfold get_string. rewrite lookup_insert_eq. reflexivity. Qed.

(** A type that is neither "wheelchair" nor "segway" gives the object that
    type "foot" gives. *)
Theorem unrecognized_type_is_foot (pt : gmap string pdata) (ty : string) :
  get_string pt "type" "foot" = ty ->
  ty <> "wheelchair" -> ty <> "segway" ->
  PedestrianCost pt = PedestrianCost (<["type" := PString "foot"]> pt).
Proof.
  intros Hty Hw Hs.
  apply String.eqb_neq in Hw. apply String.eqb_neq in Hs.
  unfold PedestrianCost.
  rewrite get_string_insert_eq, Hty, Hw, Hs.
  rewrite !get_float_insert_ne by discriminate.
  rewrite !get_uint32_insert_ne by discriminate.
  reflexivity.
Qed.

Lemma unrecognized_type_is_foot_witness :
  PedestrianCost {[ "type" := PString "bicycle" ]}
  = PedestrianCost
      (<["type" := PString "foot"]> {[ "type" := PString "bicycle" ]}).
Proof.
  apply (unrecognized_type_is_foot _ "bicycle").
  - reflexivity.
  - discriminate.
  - discriminate.
Defined.

(** *** Defaults and ranges *)

(** With no numeric option present, every data member governed by a range
    lies within it, whatever the type. *)
Theorem defaults_within_ranges (pt : gmap string pdata) :
  (forall key : string, key ∈ numeric_keys -> pt !! key = None) ->
  fields_in_range (PedestrianCost pt).
Proof.
  intros H.
  assert (Hf : forall key dflt, key ∈ numeric_keys ->
                 get_float pt key dflt = dflt)
    by (intros key dflt Hin; apply get_float_absent, H, Hin).
  assert (Hu : forall key dflt, key ∈ numeric_keys ->
                 get_uint32 pt key dflt = dflt)
    by (intros key dflt Hin; apply get_uint32_absent, H, Hin).
  unfold fields_in_range, PedestrianCost. simpl.
  rewrite !Hf by key_in_list. rewrite !Hu by key_in_list.
  destruct (String.eqb (get_string pt "type" "foot") "wheelchair");
    [|destruct (String.eqb (get_string pt "type" "foot") "segway")];
    repeat split; vm_compute; discriminate.
Qed.

Lemma defaults_within_ranges_witness :
  fields_in_range (PedestrianCost Sample.segway).
Proof.
  apply defaults_within_ranges.
  intros key Hin. apply lookup_singleton_ne.
  intros <-. revert Hin.
  apply (bool_decide_unpack ("type" ∉ numeric_keys)).
  vm_compute. exact I.
Defined.

Lemma in_range_costs_nonneg_witness :
  Cost_nonneg (EdgeCost (PedestrianCost Sample.no_options)
                 (Sample.edge_of kFerry 1000 40))
  /\ Cost_nonneg (TransitionCost (PedestrianCost Sample.no_options)
                    (Sample.edge_of kFerry 1000 40)
                    (Sample.node_of kBorderControl) (Sample.label_of kRoad 0))
  /\ Cost_nonneg
       (TransitionCostReverse (PedestrianCost Sample.no_options) 0
          (Sample.node_of kBorderControl) (Sample.edge_of kRoad 10 0)
          (Sample.edge_of kFerry 1000 40)).
Proof.
  apply in_range_costs_nonneg.
  - repeat split; vm_compute; discriminate.
  - vm_compute. discriminate.
  - intros _. reflexivity.
Defined.

(** *** Bounds and monotonicity of the ferry derivation *)

(** For a dial within [0, 1] the derived weight lies in [0.5, 10] and the
    derived penalty in [0, kMaxFerryPenalty]. *)
Theorem ferry_derivation_bounds (pt : gmap string pdata) :
  in_range kUseFerryRange (use_ferry_ (PedestrianCost pt)) ->
  ((1 # 2) <= ferry_weight_ (PedestrianCost pt))%Q
  /\ (ferry_weight_ (PedestrianCost pt) <= 10)%Q
  /\ (0 <= ferry_penalty_ (PedestrianCost pt))%Q
  /\ (ferry_penalty_ (PedestrianCost pt) <= kMaxFerryPenalty)%Q.
Proof.
  intros [Hlo Hhi].
  change (use_ferry_ (PedestrianCost pt))
    with (get_float pt "use_ferry" kDefaultUseFerry) in Hlo, Hhi.
  change (ferry_weight_ (PedestrianCost pt))
    with (ferry_weight_of (get_float pt "use_ferry" kDefaultUseFerry)).
  change (ferry_penalty_ (PedestrianCost pt))
    with (ferry_penalty_of (get_float pt "use_ferry" kDefaultUseFerry)).
  generalize dependent (get_float pt "use_ferry" kDefaultUseFerry).
  intros d Hlo Hhi. simpl in Hlo, Hhi.
  split; [|split; [|split]].
  - unfold ferry_weight_of. destruct (Qlt_le_dec d (1 # 2)); lra.
  - unfold ferry_weight_of. destruct (Qlt_le_dec d (1 # 2)); lra.
  - apply ferry_penalty_of_nonneg.
  - unfold ferry_penalty_of.
    destruct (Qlt_le_dec d (1 # 2));
      [|unfold kMaxFerryPenalty; lra].
    rewrite float_to_uint32_floor.
    + apply Qle_trans with (y := (kMaxFerryPenalty * (1 - d * 2))%Q);
        [apply Qfloor_le | unfold kMaxFerryPenalty; lra].
    + unfold kMaxFerryPenalty; lra.
    + unfold kMaxFerryPenalty, uint32_modulus.
      change (inject_Z (2 ^ 32)) with 4294967296%Q. lra.
Qed.

Lemma ferry_derivation_bounds_witness :
  ((1 # 2) <= ferry_weight_ (PedestrianCost (Sample.ferry_dial (1 # 4))))%Q
  /\ (ferry_weight_ (PedestrianCost (Sample.ferry_dial (1 # 4))) <= 10)%Q
  /\ (0 <= ferry_penalty_ (PedestrianCost (Sample.ferry_dial (1 # 4))))%Q
  /\ (ferry_penalty_ (PedestrianCost (Sample.ferry_dial (1 # 4)))
      <= kMaxFerryPenalty)%Q.
Proof.
  apply ferry_derivation_bounds.
  split; vm_compute; discriminate.
Defined.

(** Turning the dial up within [0, 1] never raises the ferry weight or the
    ferry penalty. *)
Theorem ferry_derivation_monotone (pt1 pt2 : gmap string pdata) :
  (0 <= use_ferry_ (PedestrianCost pt1))%Q ->
  (use_ferry_ (PedestrianCost pt1) <= use_ferry_ (PedestrianCost pt2))%Q ->
  (use_ferry_ (PedestrianCost pt2) <= 1)%Q ->
  (ferry_weight_ (PedestrianCost pt2) <= ferry_weight_ (PedestrianCost pt1))%Q
  /\ (ferry_penalty_ (PedestrianCost pt2)
      <= ferry_penalty_ (PedestrianCost pt1))%Q.
Proof.
  change (use_ferry_ (PedestrianCost pt1))
    with (get_float pt1 "use_ferry" kDefaultUseFerry).
  change (use_ferry_ (PedestrianCost pt2))
    with (get_float pt2 "use_ferry" kDefaultUseFerry).
  change (ferry_weight_ (PedestrianCost pt1))
    with (ferry_weight_of (get_float pt1 "use_ferry" kDefaultUseFerry)).
  change (ferry_weight_ (PedestrianCost pt2))
    with (ferry_weight_of (get_float pt2 "use_ferry" kDefaultUseFerry)).
  change (ferry_penalty_ (PedestrianCost pt1))
    with (ferry_penalty_of (get_float pt1 "use_ferry" kDefaultUseFerry)).
  change (ferry_penalty_ (PedestrianCost pt2))
    with (ferry_penalty_of (get_float pt2 "use_ferry" kDefaultUseFerry)).
  generalize (get_float pt1 "use_ferry" kDefaultUseFerry).
  generalize (get_float pt2 "use_ferry" kDefaultUseFerry).
  intros d2 d1 H0 Hle H1.
  split.
  - unfold ferry_weight_of.
    destruct (Qlt_le_dec d1 (1 # 2)), (Qlt_le_dec d2 (1 # 2)); lra.
  - pose proof (ferry_penalty_of_nonneg d1) as Hnn.
    unfold ferry_penalty_of in *.
    destruct (Qlt_le_dec d1 (1 # 2)) as [Hd1|Hd1],
             (Qlt_le_dec d2 (1 # 2)) as [Hd2|Hd2];
      try lra.
    rewrite !float_to_uint32_floor;
      try (unfold kMaxFerryPenalty, uint32_modulus;
           try change (inject_Z (2 ^ 32)) with 4294967296%Q; lra).
    rewrite <- Zle_Qle. apply Qfloor_resp_le.
    unfold kMaxFerryPenalty. lra.
Qed.

Lemma ferry_derivation_monotone_witness :
  (ferry_weight_ (PedestrianCost (Sample.ferry_dial (3 # 4)))
   <= ferry_weight_ (PedestrianCost (Sample.ferry_dial (1 # 4))))%Q
  /\ (ferry_penalty_ (PedestrianCost (Sample.ferry_dial (3 # 4)))
      <= ferry_penalty_ (PedestrianCost (Sample.ferry_dial (1 # 4))))%Q.
Proof.
  apply ferry_derivation_monotone; vm_compute; discriminate.
Defined.

(** *** The A* cost factor, further *)

(** On a constructed object whose speed is at least the minimum pedestrian
    speed and whose walkway factor is nonnegative, the A* cost factor lies
    between 0 and the speed factor: favouring walkways only lowers it. *)
Theorem AStarCostFactor_at_most_speedfactor (pt : gmap string pdata) :
  (kMinPedestrianSpeed <= speed_ (PedestrianCost pt))%Q ->
  (0 <= walkway_factor_ (PedestrianCost pt))%Q ->
  (0 <= AStarCostFactor (PedestrianCost pt))%Q
  /\ (AStarCostFactor (PedestrianCost pt)
      <= speedfactor_ (PedestrianCost pt))%Q.
Proof.
  intros Hsp Hw.
  assert (Hsf : (0 <= speedfactor_ (PedestrianCost pt))%Q).
  { rewrite speedfactor_of_speed.
    unfold Qdiv. apply Qmult_le_0_compat; [vm_compute; discriminate|].
    apply Qinv_le_0_compat. unfold kMinPedestrianSpeed in Hsp. lra. }
  clear Hsp. generalize dependent (PedestrianCost pt). intros this Hw Hsf.
  unfold AStarCostFactor.
  destruct (Qlt_le_dec (walkway_factor_ this) 1) as [Hlt|Hge].
  - split.
    + apply Qmult_le_0_compat; assumption.
    + rewrite <- (Qmult_1_l (speedfactor_ this)) at 2.
      apply Qmult_le_compat_r; [lra | exact Hsf].
  - split; [exact Hsf | lra].
Qed.

Lemma AStarCostFactor_at_most_speedfactor_witness :
  (0 <= AStarCostFactor (PedestrianCost Sample.no_options))%Q
  /\ (AStarCostFactor (PedestrianCost Sample.no_options)
      <= speedfactor_ (PedestrianCost Sample.no_options))%Q.
Proof.
  apply AStarCostFactor_at_most_speedfactor; vm_compute; discriminate.
Defined.

(** *** Transition costs, further *)

Lemma crossing_cost_le_15 (i : Z) : (crossing_cost i <= 15)%Q.
Proof.
  unfold crossing_cost.
  assert (H : (default 0 (kCrossingCosts !! Z.to_nat i) <= 15)%Z).
  { generalize (Z.to_nat i). intros n.
    do 8 (destruct n as [|n]; [simpl; lia|]).
    simpl. lia. }
  change 15%Q with (inject_Z 15). rewrite <- Zle_Qle. exact H.
Qed.

(** Onto a steps edge both transition costs are the step penalty with no
    time, whatever the node, the predecessor and the local index. *)
Theorem steps_transition_is_step_penalty
    (this : t) (edge predEdge : DirectedEdge.t) (node : NodeInfo.t)
    (pred : EdgeLabel.t) (idx : Z) :
  DirectedEdge.use edge = kSteps ->
  TransitionCost this edge node pred = mkCost (step_penalty_ this) 0
  /\ TransitionCostReverse this idx node predEdge edge
     = mkCost (step_penalty_ this) 0.
Proof.
  intros Hu. unfold TransitionCost, TransitionCostReverse.
  rewrite Hu. split; reflexivity.
Qed.

Lemma steps_transition_is_step_penalty_witness :
  TransitionCost (PedestrianCost Sample.no_options)
    (Sample.edge_of kSteps 10 0) (Sample.node_of kGate)
    (Sample.label_of kRoad 0)
  = mkCost (step_penalty_ (PedestrianCost Sample.no_options)) 0
  /\ TransitionCostReverse (PedestrianCost Sample.no_options) 2
       (Sample.node_of kGate) (Sample.edge_of kRoad 10 0)
       (Sample.edge_of kSteps 10 0)
     = mkCost (step_penalty_ (PedestrianCost Sample.no_options)) 0.
Proof.
  apply steps_transition_is_step_penalty. reflexivity.
Defined.

(** With nonnegative cost fields, the time of a transition is at most its
    cost, in both directions. *)
Theorem transition_time_at_most_cost
    (this : t) (edge predEdge : DirectedEdge.t) (node : NodeInfo.t)
    (pred : EdgeLabel.t) (idx : Z) :
  cost_fields_nonneg this ->
  (secs (TransitionCost this edge node pred)
   <= cost (TransitionCost this edge node pred))%Q
  /\ (secs (TransitionCostReverse this idx node predEdge edge)
      <= cost (TransitionCostReverse this idx node predEdge edge))%Q.
Proof.
  intros (_ & _ & _ & _ & _ & Hst & Hg & Hm & Hcc & Hcp & Hfc & Hfp & _).
  unfold TransitionCost, TransitionCostReverse.
  destruct (Use_eqb (DirectedEdge.use edge) kSteps); simpl; [lra|].
  split;
    repeat match goal with
           | |- context [if ?b then _ else _] => destruct b; simpl
           end; lra.
Qed.

Lemma transition_time_at_most_cost_witness :
  (secs (TransitionCost (PedestrianCost Sample.no_options)
           (Sample.edge_of kFerry 100 20) (Sample.node_of kGate)
           (Sample.label_of kRoad 0))
   <= cost (TransitionCost (PedestrianCost Sample.no_options)
              (Sample.edge_of kFerry 100 20) (Sample.node_of kGate)
              (Sample.label_of kRoad 0)))%Q
  /\ (secs (TransitionCostReverse (PedestrianCost Sample.no_options) 0
              (Sample.node_of kGate) (Sample.edge_of kRoad 10 0)
              (Sample.edge_of kFerry 100 20))
      <= cost (TransitionCostReverse (PedestrianCost Sample.no_options) 0
                 (Sample.node_of kGate) (Sample.edge_of kRoad 10 0)
                 (Sample.edge_of kFerry 100 20)))%Q.
Proof.
  apply transition_time_at_most_cost.
  repeat split; vm_compute; discriminate.
Defined.

(** With nonnegative cost fields, the time of a transition is at most the
    country-crossing cost plus the ferry cost plus 15 seconds, the largest
    crossing cost. *)
Theorem transition_time_upper_bound
    (this : t) (edge : DirectedEdge.t) (node : NodeInfo.t)
    (pred : EdgeLabel.t) :
  cost_fields_nonneg this ->
  (secs (TransitionCost this edge node pred)
   <= country_crossing_cost_ this + ferry_cost_ this + 15)%Q.
Proof.
  intros (_ & _ & _ & _ & _ & Hst & Hg & Hm & Hcc & Hcp & Hfc & Hfp & _).
  pose proof (crossing_cost_le_15
                (DirectedEdge.stopimpact edge (EdgeLabel.opp_local_idx pred)))
    as Hcross.
  unfold TransitionCost.
  destruct (Use_eqb (DirectedEdge.use edge) kSteps); simpl; [lra|].
  repeat match goal with
         | |- context [if ?b then _ else _] => destruct b; simpl
         end; lra.
Qed.

Lemma transition_time_upper_bound_witness :
  (secs (TransitionCost (PedestrianCost Sample.no_options)
           (Sample.edge_of kFerry 100 20) (Sample.node_of kBorderControl)
           (Sample.label_of kRoad 0))
   <= country_crossing_cost_ (PedestrianCost Sample.no_options)
      + ferry_cost_ (PedestrianCost Sample.no_options) + 15)%Q.
Proof.
  apply transition_time_upper_bound.
  repeat split; vm_compute; discriminate.
Defined.

(** With nonnegative cost fields, a transition from a
    predecessor that is not on a ferry has at least the time and the cost of
    the transition from one that is, the opposing local index being the
    same: boarding is never cheaper than staying aboard. *)
Theorem boarding_never_cheaper
    (this : t) (edge : DirectedEdge.t) (node : NodeInfo.t)
    (boarding aboard : EdgeLabel.t) :
  cost_fields_nonneg this ->
  EdgeLabel.use boarding <> kFerry ->
  EdgeLabel.use aboard = kFerry ->
  EdgeLabel.opp_local_idx boarding = EdgeLabel.opp_local_idx aboard ->
  (secs (TransitionCost this edge node aboard)
   <= secs (TransitionCost this edge node boarding))%Q
  /\ (cost (TransitionCost this edge node aboard)
      <= cost (TransitionCost this edge node boarding))%Q.
Proof.
  intros (_ & _ & _ & _ & _ & _ & _ & _ & _ & _ & Hfc & Hfp & _) Hb Ha Hidx.
  apply Use_eqb_neq in Hb.
  unfold TransitionCost. rewrite Hb, Ha, Hidx. simpl.
  destruct (Use_eqb (DirectedEdge.use edge) kSteps); simpl; [lra|].
  split;
    repeat match goal with
           | |- context [if ?b then _ else _] => destruct b; simpl
           end; lra.
Qed.

Lemma boarding_never_cheaper_witness :
  (secs (TransitionCost (PedestrianCost Sample.no_options)
           (Sample.edge_of kFerry 100 20) (Sample.node_of kGate)
           (Sample.label_of kFerry 700))
   <= secs (TransitionCost (PedestrianCost Sample.no_options)
              (Sample.edge_of kFerry 100 20) (Sample.node_of kGate)
              (Sample.label_of kRoad 0)))%Q
  /\ (cost (TransitionCost (PedestrianCost Sample.no_options)
              (Sample.edge_of kFerry 100 20) (Sample.node_of kGate)
              (Sample.label_of kFerry 700))
      <= cost (TransitionCost (PedestrianCost Sample.no_options)
                 (Sample.edge_of kFerry 100 20) (Sample.node_of kGate)
                 (Sample.label_of kRoad 0)))%Q.
Proof.
  apply boarding_never_cheaper;
    solve [reflexivity | discriminate
          | repeat split; vm_compute; discriminate].
Defined.

(** Onto a link, the transition cost does not depend on the name
    consistency at the node. *)
Theorem link_ignores_name_consistency
    (this : t) (edge : DirectedEdge.t) (node node' : NodeInfo.t)
    (pred : EdgeLabel.t) :
  DirectedEdge.link edge = true ->
  NodeInfo.type node = NodeInfo.type node' ->
  TransitionCost this edge node pred = TransitionCost this edge node' pred.
Proof.
  intros Hlink Hty. unfold TransitionCost.
  rewrite Hlink, Hty. reflexivity.
Qed.

Lemma link_ignores_name_consistency_witness :
  TransitionCost (PedestrianCost Sample.no_options)
    (DirectedEdge.Build 10 kRoad kPaved 2 0 false false true 1
       (fun _ => true) (fun _ => true) (fun _ => 4))
    (NodeInfo.Build kGate 2 (fun _ _ => false)) (Sample.label_of kRoad 0)
  = TransitionCost (PedestrianCost Sample.no_options)
      (DirectedEdge.Build 10 kRoad kPaved 2 0 false false true 1
         (fun _ => true) (fun _ => true) (fun _ => 4))
      (NodeInfo.Build kGate 2 (fun _ _ => true)) (Sample.label_of kRoad 0).
Proof.
  apply link_ignores_name_consistency; reflexivity.
Defined.

(** With nonnegative cost fields and the same name consistency: against a
    node
    that is neither border control nor gate, a gate leaves the time as it is
    and does not lower the cost, and a border control lowers neither the
    time nor the cost. *)
Theorem node_type_never_cheaper
    (this : t) (edge : DirectedEdge.t) (plain gate border : NodeInfo.t)
    (pred : EdgeLabel.t) :
  cost_fields_nonneg this ->
  NodeInfo.type plain <> kBorderControl -> NodeInfo.type plain <> kGate ->
  NodeInfo.type gate = kGate -> NodeInfo.type border = kBorderControl ->
  (forall i j, NodeInfo.name_consistency gate i j
               = NodeInfo.name_consistency plain i j) ->
  (forall i j, NodeInfo.name_consistency border i j
               = NodeInfo.name_consistency plain i j) ->
  secs (TransitionCost this edge gate pred)
  = secs (TransitionCost this edge plain pred)
  /\ (cost (TransitionCost this edge plain pred)
      <= cost (TransitionCost this edge gate pred))%Q
  /\ (secs (TransitionCost this edge plain pred)
      <= secs (TransitionCost this edge border pred))%Q
  /\ (cost (TransitionCost this edge plain pred)
      <= cost (TransitionCost this edge border pred))%Q.
Proof.
  intros (_ & _ & _ & _ & _ & _ & Hgp & _ & Hcc & Hcp & _)
         Hpb Hpg Hg Hb Hng Hnb.
  assert (Hpb' : NodeType_eqb (NodeInfo.type plain) kBorderControl = false)
    by (destruct (NodeInfo.type plain); try reflexivity; contradiction).
  assert (Hpg' : NodeType_eqb (NodeInfo.type plain) kGate = false)
    by (destruct (NodeInfo.type plain); try reflexivity; contradiction).
  unfold TransitionCost.
  rewrite Hg, Hb, Hpb', Hpg', Hng, Hnb. simpl.
  destruct (Use_eqb (DirectedEdge.use edge) kSteps); simpl;
    [repeat split; lra|].
  repeat split;
    repeat match goal with
           | |- context [if ?b then _ else _] => destruct b; simpl
           end; first [reflexivity | lra].
Qed.

Lemma node_type_never_cheaper_witness :
  secs (TransitionCost (PedestrianCost Sample.no_options)
          (Sample.edge_of kRoad 10 0) (Sample.node_of kGate)
          (Sample.label_of kRoad 0))
  = secs (TransitionCost (PedestrianCost Sample.no_options)
            (Sample.edge_of kRoad 10 0)
            (Sample.node_of kStreetIntersection)
            (Sample.label_of kRoad 0)).
Proof.
  apply (node_type_never_cheaper (PedestrianCost Sample.no_options)
           (Sample.edge_of kRoad 10 0) (Sample.node_of kStreetIntersection)
           (Sample.node_of kGate) (Sample.node_of kBorderControl)
           (Sample.label_of kRoad 0));
    solve [reflexivity | discriminate
          | repeat split; vm_compute; discriminate].
Defined.

(** *** Edge costs, further *)

(** On a constructed object with every option inside its declared range,
    the edge cost grows with the length: of two edges of the same use,
    roundabout flag and speed (positive on a ferry), the longer has at least
    the time and the cost of the shorter. *)
Theorem EdgeCost_monotone_in_length
    (pt : gmap string pdata) (e1 e2 : DirectedEdge.t) :
  fields_in_range (PedestrianCost pt) ->
  DirectedEdge.use e1 = DirectedEdge.use e2 ->
  DirectedEdge.roundabout e1 = DirectedEdge.roundabout e2 ->
  DirectedEdge.speed e1 = DirectedEdge.speed e2 ->
  (DirectedEdge.use e2 = kFerry -> 0 < DirectedEdge.speed e2) ->
  0 <= DirectedEdge.length e1 ->
  DirectedEdge.length e1 <= DirectedEdge.length e2 ->
  (secs (EdgeCost (PedestrianCost pt) e1)
   <= secs (EdgeCost (PedestrianCost pt) e2))%Q
  /\ (cost (EdgeCost (PedestrianCost pt) e1)
      <= cost (EdgeCost (PedestrianCost pt) e2))%Q.
Proof.
  intros Hrange.
  pose proof (fields_in_range_nonneg pt Hrange) as Hnn. clear Hrange.
  generalize dependent (PedestrianCost pt).
  intros this (Hsf & Hw & Hs & Ha & Hd & _ & _ & _ & _ & _ & _ & _ & Hfw)
         Hu Hr Hsp Hpos H0 Hle.
  assert (Hl : (inject_Z (DirectedEdge.length e1)
                <= inject_Z (DirectedEdge.length e2))%Q)
    by (rewrite <- Zle_Qle; exact Hle).
  assert (Hmul : forall f : Q, (0 <= f)%Q ->
            (inject_Z (DirectedEdge.length e1) * f
             <= inject_Z (DirectedEdge.length e2) * f)%Q)
    by (intros f Hf; apply Qmult_le_compat_r; assumption).
  assert (Hsec : (inject_Z (DirectedEdge.length e1) * speedfactor_ this
                  <= inject_Z (DirectedEdge.length e2) * speedfactor_ this)%Q)
    by (apply Hmul; exact Hsf).
  assert (Hfac : forall f : Q, (0 <= f)%Q ->
            (inject_Z (DirectedEdge.length e1) * speedfactor_ this * f
             <= inject_Z (DirectedEdge.length e2) * speedfactor_ this * f)%Q)
    by (intros f Hf; apply Qmult_le_compat_r; assumption).
  unfold EdgeCost. rewrite Hu, Hr, Hsp.
  destruct (Use_eqb (DirectedEdge.use e2) kFerry) eqn:Hferry.
  - apply Use_eqb_eq in Hferry. specialize (Hpos Hferry).
    assert (Hv : (0 <= / inject_Z (DirectedEdge.speed e2))%Q).
    { apply Qinv_le_0_compat.
      change 0%Q with (inject_Z 0). rewrite <- Zle_Qle. lia. }
    assert (Hfsec : (inject_Z (DirectedEdge.length e1)
                       * (kSecPerHour * (1 # 1000))
                       / inject_Z (DirectedEdge.speed e2)
                     <= inject_Z (DirectedEdge.length e2)
                        * (kSecPerHour * (1 # 1000))
                        / inject_Z (DirectedEdge.speed e2))%Q).
    { unfold Qdiv. apply Qmult_le_compat_r; [|exact Hv].
      apply Hmul. vm_compute. discriminate. }
    simpl. split; [exact Hfsec|].
    apply Qmult_le_compat_r; assumption.
  - repeat match goal with
           | |- context [if ?b then _ else _] => destruct b; simpl
           end;
      (split; [exact Hsec|]);
      first [ exact Hsec | apply Hfac; assumption
            | apply Hfac; vm_compute; discriminate ].
Qed.

Lemma EdgeCost_monotone_in_length_witness :
  (secs (EdgeCost (PedestrianCost Sample.no_options)
           (Sample.edge_of kFerry 30 20))
   <= secs (EdgeCost (PedestrianCost Sample.no_options)
              (Sample.edge_of kFerry 100 20)))%Q
  /\ (cost (EdgeCost (PedestrianCost Sample.no_options)
              (Sample.edge_of kFerry 30 20))
      <= cost (EdgeCost (PedestrianCost Sample.no_options)
                 (Sample.edge_of kFerry 100 20)))%Q.
Proof.
  apply EdgeCost_monotone_in_length.
  - repeat split; vm_compute; discriminate.
  - reflexivity.
  - reflexivity.
  - reflexivity.
  - intros _. reflexivity.
  - vm_compute. discriminate.
  - vm_compute. discriminate.
Defined.

(** Of two constructed objects whose speeds are at least the minimum
    pedestrian speed, the one with the higher walking speed never takes more
    time on an edge of nonnegative length that is not a ferry. *)
Theorem faster_walker_no_more_time
    (pt1 pt2 : gmap string pdata) (edge : DirectedEdge.t) :
  (kMinPedestrianSpeed <= speed_ (PedestrianCost pt1))%Q ->
  (speed_ (PedestrianCost pt1) <= speed_ (PedestrianCost pt2))%Q ->
  DirectedEdge.use edge <> kFerry ->
  0 <= DirectedEdge.length edge ->
  (secs (EdgeCost (PedestrianCost pt2) edge)
   <= secs (EdgeCost (PedestrianCost pt1) edge))%Q.
Proof.
  intros Hmin Hle Hu Hlen.
  assert (Hpos : (0 < speed_ (PedestrianCost pt1))%Q)
    by (unfold kMinPedestrianSpeed in Hmin; lra).
  clear Hmin.
  apply Use_eqb_neq in Hu.
  assert (Hsec : forall p, secs (EdgeCost p edge)
                 = (inject_Z (DirectedEdge.length edge) * speedfactor_ p)%Q).
  { intros p. unfold EdgeCost. rewrite Hu.
    repeat match goal with
           | |- context [if ?b then _ else _] => destruct b
           end; reflexivity. }
  rewrite !Hsec, !speedfactor_of_speed.
  generalize dependent (speed_ (PedestrianCost pt2)).
  generalize dependent (speed_ (PedestrianCost pt1)).
  intros s1 Hpos s2 Hle.
  assert (Hl : (0 <= inject_Z (DirectedEdge.length edge))%Q)
    by (change 0%Q with (inject_Z 0); rewrite <- Zle_Qle; exact Hlen).
  assert (Hinv : (/ s2 <= / s1)%Q).
  { apply Qle_shift_inv_l; [exact Hpos|].
    rewrite Qmult_comm. change (s1 * / s2)%Q with (s1 / s2)%Q.
    apply Qle_shift_div_r; lra. }
  rewrite !(Qmult_comm (inject_Z (DirectedEdge.length edge))).
  apply Qmult_le_compat_r; [|exact Hl].
  unfold Qdiv.
  rewrite !(Qmult_comm (kSecPerHour * (1 # 1000))).
  apply Qmult_le_compat_r; [exact Hinv|].
  vm_compute. discriminate.
Qed.

Lemma faster_walker_no_more_time_witness :
  (secs (EdgeCost (PedestrianCost Sample.fast_walker)
           (Sample.edge_of kRoad 1000 0))
   <= secs (EdgeCost (PedestrianCost Sample.no_options)
              (Sample.edge_of kRoad 1000 0)))%Q.
Proof.
  apply faster_walker_no_more_time.
  - vm_compute. discriminate.
  - vm_compute. discriminate.
  - discriminate.
  - vm_compute. discriminate.
Defined.

(** *** The inline test *)

Lemma get_string_insert_ne (pt : gmap string pdata) (k key dflt : string)
    (v : pdata) :
  k <> key -> get_string (<[k := v]> pt) key dflt = get_string pt key dflt.
Proof.
  intros Hne. unfold get_string. rewrite lookup_insert_ne by exact Hne.
  reflexivity.
Qed.

Lemma get_float_insert_eq (pt : gmap string pdata) (k : string)
    (dflt q : Q) :
  get_float (<[k := PNumber q]> pt) k dflt = q.
Proof. unfold get_float. rewrite lookup_insert_eq. reflexivity. Qed.

(** The foot loops on the step penalty and on the maximum grade set the
    keys [step_penalty_] and [max_grade_], which the constructor does not
    read: the object keeps the defaults and the loops throw on no sample. *)
Theorem misspelt_test_keys_never_throw (x : Q) :
  step_penalty_ (make_pedestriancost_from_json "step_penalty_" x "foot")
  = kDefaultStepPenaltyFoot
  /\ max_grade_ (make_pedestriancost_from_json "max_grade_" x "foot")
     = kDefaultMaxGradeFoot
  /\ test_step_penalty_foot x = false
  /\ test_max_grade_foot x = false.
Proof.
  assert (Hs : step_penalty_
                 (make_pedestriancost_from_json "step_penalty_" x "foot")
               = kDefaultStepPenaltyFoot).
  { unfold make_pedestriancost_from_json, PedestrianCost. simpl.
    rewrite get_string_insert_ne by discriminate.
    rewrite !get_float_insert_ne by discriminate.
    reflexivity. }
  assert (Hg : max_grade_
                 (make_pedestriancost_from_json "max_grade_" x "foot")
               = kDefaultMaxGradeFoot).
  { unfold make_pedestriancost_from_json, PedestrianCost. simpl.
    rewrite get_string_insert_ne by discriminate.
    rewrite !get_float_insert_ne by discriminate.
    reflexivity. }
  unfold test_step_penalty_foot, test_max_grade_foot, param_test.
  rewrite Hs, Hg. repeat split.
Qed.

(** The loops on the walking speed and on the wheelchair step penalty store
    the sample as it is, so they throw exactly on the samples outside the
    range. *)
Theorem spelt_test_keys_throw_outside_range (x : Q) :
  test_speed_wheelchair x = outside_range kSpeedWheelchairRange x
  /\ test_speed_foot x = outside_range kSpeedFootRange x
  /\ test_step_penalty_wheelchair x
     = outside_range kStepPenaltyWheelchairRange x.
Proof.
  unfold test_speed_wheelchair, test_speed_foot,
    test_step_penalty_wheelchair, param_test, make_pedestriancost_from_json,
    PedestrianCost.
  simpl.
  rewrite !get_string_insert_ne by discriminate.
  rewrite !get_float_insert_eq.
  repeat split.
Qed.
